(** * Travel planner: location resolution, caching and data fetching

    A shallow embedding of [travel_planner/agentic_travel_planner.py]:
    the two process-wide caches, the three resolvers
    ([get_city_code], [get_airport_code], [get_city_coordinates]) and the
    three fetchers ([find_best_flight], [find_best_hotel],
    [get_activities]).

    The Amadeus client is an oracle: it answers a request, given the
    requests issued before it, with response data or with an exception.
    Response data are JSON values as Python sees them.  Python exceptions
    are values of [exn]; a computation is a function from the state of the
    process (both caches and the list of requests issued so far) to a
    result and a new state, so that a cache write made before an exception
    is raised stays in place, as in Python.

    Strings are strings of 8-bit characters; [upper] changes the ASCII
    letters.  Numbers are exact rationals; only their truth value (zero or
    not) and their equality as dictionary keys are used.  [logging] calls
    and [time.sleep] have no effect on results and are left out. *)

From Stdlib Require Import String Ascii ZArith QArith Qcanon List Lia.
From stdpp Require Import gmap strings list fin_maps.

Local Open Scope string_scope.

(** ** Python values *)

#[warnings="-register-all"]
Inductive pyval : Type :=
| PNone
| PBool (b : bool)
| PNum (q : Qc)
| PStr (s : string)
| PList (items : list pyval)
| PDict (items : list (string * pyval)).

(** The exceptions the modelled code can meet.  All of them are subclasses
    of [Exception]; [ResponseError] is the Amadeus SDK's. *)
Inductive exn : Type :=
| ResponseError
| KeyError
| IndexError
| TypeError
| AttributeError
| OtherException (name : string).

Definition is_ResponseError (e : exn) : bool :=
  match e with ResponseError => true | _ => false end.

Inductive result (A : Type) : Type :=
| Ok (a : A)
| Raise (e : exn).
Arguments Ok {A} a.
Arguments Raise {A} e.

(** [bool(v)]: the truth value of [v] in a condition. *)
Definition truthy (v : pyval) : bool :=
  match v with
  | PNone => false
  | PBool b => b
  | PNum q => negb (Qeq_bool q 0)
  | PStr s => negb (String.eqb s "")
  | PList l => match l with [] => false | _ => true end
  | PDict l => match l with [] => false | _ => true end
  end.

(** Lookup in the items of a dict. *)
Fixpoint assoc (k : string) (items : list (string * pyval)) : option pyval :=
  match items with
  | [] => None
  | (k', v) :: rest => if String.eqb k k' then Some v else assoc k rest
  end.

(** [v[k]] for a string key [k]. *)
Definition getitem_key (v : pyval) (k : string) : result pyval :=
  match v with
  | PDict items =>
      match assoc k items with Some x => Ok x | None => Raise KeyError end
  | _ => Raise TypeError
  end.

(** Python index normalisation: a negative index counts from the end. *)
Definition norm_index (i : Z) (len : nat) : option nat :=
  let j := if (i <? 0)%Z then (i + Z.of_nat len)%Z else i in
  if (j <? 0)%Z then None
  else if (j <? Z.of_nat len)%Z then Some (Z.to_nat j) else None.

(** [v[i]] for an integer index [i]. *)
Definition getitem_index (v : pyval) (i : Z) : result pyval :=
  match v with
  | PList l =>
      match norm_index i (length l) with
      | Some n => match nth_error l n with Some x => Ok x | None => Raise IndexError end
      | None => Raise IndexError
      end
  | PStr s =>
      match norm_index i (String.length s) with
      | Some n => match String.get n s with
                  | Some c => Ok (PStr (String c EmptyString))
                  | None => Raise IndexError
                  end
      | None => Raise IndexError
      end
  | PDict _ => Raise KeyError
  | _ => Raise TypeError
  end.

(** [v.get(k, default)]; only dicts have the method. *)
Definition dict_get (v : pyval) (k : string) (default : pyval) : result pyval :=
  match v with
  | PDict items =>
      match assoc k items with Some x => Ok x | None => Ok default end
  | _ => Raise AttributeError
  end.

(** [v[:n]]. *)
Definition slice_to (v : pyval) (n : nat) : result pyval :=
  match v with
  | PList l => Ok (PList (firstn n l))
  | PStr s => Ok (PStr (substring 0 n s))
  | _ => Raise TypeError
  end.

Definition chars (s : string) : list pyval :=
  map (fun c => PStr (String c EmptyString)) (list_ascii_of_string s).

(** The items a [for] loop over [v] visits. *)
Definition iterate (v : pyval) : result (list pyval) :=
  match v with
  | PList l => Ok l
  | PStr s => Ok (chars s)
  | PDict items => Ok (map (fun kv => PStr (fst kv)) items)
  | _ => Raise TypeError
  end.

(** [v += s] for a string [s]: concatenation on a string, extension by the
    characters of [s] on a list, a [TypeError] otherwise. *)
Definition iadd_str (v : pyval) (s : string) : result pyval :=
  match v with
  | PStr a => Ok (PStr (a ++ s))
  | PList l => Ok (PList (l ++ chars s))
  | _ => Raise TypeError
  end.

Definition upper_ascii (c : ascii) : ascii :=
  let n := nat_of_ascii c in
  if Nat.leb 97 n && Nat.leb n 122 then ascii_of_nat (n - 32) else c.

(** [s.upper()]. *)
Fixpoint upper (s : string) : string :=
  match s with
  | EmptyString => EmptyString
  | String c rest => String (upper_ascii c) (upper rest)
  end.

(** ** Dictionary keys

    The coordinate cache is keyed by whatever the service gave as
    [iataCode].  [None], booleans, numbers and strings are hashable (a
    boolean is equal to the number 0 or 1 as a key); lists and dicts are
    not, and using one as a key raises [TypeError]. *)

Inductive pykey : Type :=
| KNone
| KNum (q : Qc)
| KStr (s : string).

Global Instance pykey_eq_dec : EqDecision pykey.
Proof. solve_decision. Defined.

Global Instance pykey_countable : Countable pykey.
Proof.
  refine (inj_countable'
    (fun k => match k with
              | KNone => inl ()
              | KNum q => inr (inl q)
              | KStr s => inr (inr s)
              end)
    (fun x => match x with
              | inl _ => KNone
              | inr (inl q) => KNum q
              | inr (inr s) => KStr s
              end) _).
  intros []; reflexivity.
Defined.

Definition hash_key (v : pyval) : option pykey :=
  match v with
  | PNone => Some KNone
  | PBool b => Some (KNum (if b then 1%Qc else 0%Qc))
  | PNum q => Some (KNum q)
  | PStr s => Some (KStr s)
  | PList _ | PDict _ => None
  end.

(** ** The external service and the state of the process *)

(** The calls the program makes on the Amadeus client, with their keyword
    arguments. *)
Inductive request : Type :=
| LocationsGet (keyword : pyval) (subType : string) (view : option string)
| FlightOffersSearchGet (originLocationCode destinationLocationCode : pyval)
    (departureDate returnDate : string) (adults : Z) (currencyCode : string)
    (max : Z)
| HotelOffersGet (cityCode : pyval) (checkInDate checkOutDate : string)
    (adults : Z) (currency : string) (view : string) (bestRateOnly : bool)
| ActivitiesGet (latitude longitude : pyval) (radius : Z).

(** What a call comes back with: [response.data], or an exception. *)
Inductive outcome : Type :=
| Responds (data : pyval)
| Fails (e : exn).

(** The module-level caches, and the requests issued so far (latest
    first). *)
Record FlightOption : Type := mkFlightOption {
  airline : pyval;
  price : pyval;
  departure_time : pyval;
  arrival_time : pyval
}.

Record HotelOption : Type := mkHotelOption {
  name : pyval;
  nightly_price : pyval;
  address : pyval
}.

Record Activity : Type := mkActivity {
  activity_name : pyval;
  description : pyval
}.

Record world : Type := mkWorld {
  _code_cache : gmap string pyval;
  _coordinate_cache : gmap pykey (pyval * pyval);
  queries : list request
}.

Definition startup : world := mkWorld ∅ ∅ [].

(** ** Computations: state passing with exceptions *)

Definition M (A : Type) : Type := world -> result A * world.

Definition pure {A} (a : A) : M A := fun w => (Ok a, w).

Definition bind {A B} (m : M A) (k : A -> M B) : M B :=
  fun w =>
    match m w with
    | (Ok a, w') => k a w'
    | (Raise e, w') => (Raise e, w')
    end.

Definition lift {A} (r : result A) : M A := fun w => (r, w).

(** Sequencing of steps that do not touch the state. *)
Definition rbind {A B} (r : result A) (k : A -> result B) : result B :=
  match r with
  | Ok a => k a
  | Raise e => Raise e
  end.

Fixpoint rmap {A B} (f : A -> result B) (l : list A) : result (list B) :=
  match l with
  | [] => Ok []
  | x :: rest =>
      rbind (f x) (fun y => rbind (rmap f rest) (fun ys => Ok (y :: ys)))
  end.

Notation "x <- m ;; k" := (bind m (fun x => k))
  (at level 100, m at next level, right associativity).
Notation "m ;;; k" := (bind m (fun _ => k))
  (at level 100, right associativity).
Notation "x <~ r ;; k" := (rbind r (fun x => k))
  (at level 100, r at next level, right associativity).

(** [try: body except ...]: [handler e] is the clause that catches [e], if
    one does. *)
Definition try_except {A} (body : M A) (handler : exn -> option (M A)) : M A :=
  fun w =>
    match body w with
    | (Ok a, w') => (Ok a, w')
    | (Raise e, w') =>
        match handler e with
        | Some h => h w'
        | None => (Raise e, w')
        end
    end.

(** [except Exception as error: h]. *)
Definition except_Exception {A} (h : M A) : exn -> option (M A) :=
  fun _ => Some h.

(** [except ResponseError as error: h]. *)
Definition except_ResponseError {A} (h : M A) : exn -> option (M A) :=
  fun e => if is_ResponseError e then Some h else None.

(** [except ResponseError: h1] followed by [except Exception: h2]. *)
Definition except_ResponseError_then_Exception {A} (h1 h2 : M A)
  : exn -> option (M A) :=
  fun e => if is_ResponseError e then Some h1 else Some h2.

Definition code_cache_set (k : string) (v : pyval) : M unit :=
  fun w => (Ok tt, mkWorld (<[k := v]> (_code_cache w)) (_coordinate_cache w) (queries w)).

(** [_coordinate_cache[code] = coords]: an unhashable [code] raises, and
    the cache is not touched. *)
Definition coordinate_cache_set (code : pyval) (coords : pyval * pyval) : M unit :=
  fun w =>
    match hash_key code with
    | Some k => (Ok tt, mkWorld (_code_cache w) (<[k := coords]> (_coordinate_cache w)) (queries w))
    | None => (Raise TypeError, w)
    end.

(** [code in _coordinate_cache] and [_coordinate_cache[code]] in one. *)
Definition coordinate_cache_find (code : pyval) : M (option (pyval * pyval)) :=
  fun w =>
    match hash_key code with
    | Some k => (Ok (_coordinate_cache w !! k), w)
    | None => (Raise TypeError, w)
    end.

(** The state after one more request has gone out. *)
Definition issue (r : request) (w : world) : world :=
  mkWorld (_code_cache w) (_coordinate_cache w) (r :: queries w).

(** The code a location lookup supplies: the [iataCode] of the first entry
    of non-empty response data.  [None] when the call raises, when the data
    are empty, and when reading [data[0]["iataCode"]] raises. *)
Definition lookup_code (o : outcome) : option pyval :=
  match o with
  | Fails _ => None
  | Responds data =>
      if truthy data then
        match rbind (getitem_index data 0) (fun first => getitem_key first "iataCode") with
        | Ok code => Some code
        | Raise _ => None
        end
      else None
  end.

(** A lookup that returns an empty result, or raises. *)
Definition empty_or_error (o : outcome) : bool :=
  match o with
  | Fails _ => true
  | Responds data => negb (truthy data)
  end.

Section Planner.

(** The Amadeus client: the answer to a request after the given earlier
    requests. *)
Variable amadeus : list request -> request -> outcome.

(** [str(v)] for a [v] that is not a string, as an f-string field. *)
Variable str_of_other : pyval -> string.

Definition format (v : pyval) : string :=
  match v with
  | PStr s => s
  | _ => str_of_other v
  end.

(** One call on the client: the request is recorded, and the data come
    back or the exception is raised. *)
Definition call (r : request) : M pyval :=
  fun w =>
    match amadeus (queries w) r with
    | Responds data => (Ok data, issue r w)
    | Fails e => (Raise e, issue r w)
    end.

(** ** City and airport code lookup with caching *)

Definition fallback_code (city_name : string) : pyval :=
  PStr (upper (substring 0 3 city_name)).

Definition city_request (city_name : string) : request :=
  LocationsGet (PStr city_name) "CITY" (Some "FULL").

Definition airport_request (city_name : string) : request :=
  LocationsGet (PStr city_name) "AIRPORT" None.

(** The [try] block of [get_city_code]. *)
Definition get_city_code_try (city_name : string) : M pyval :=
  data <- call (city_request city_name) ;;
  if truthy data then
    first <- lift (getitem_index data 0) ;;
    code <- lift (getitem_key first "iataCode") ;;
    code_cache_set (upper city_name) code ;;;
    first' <- lift (getitem_index data 0) ;;
    geo <- lift (dict_get first' "geoCode" (PDict [])) ;;
    lat <- lift (dict_get geo "latitude" PNone) ;;
    lon <- lift (dict_get geo "longitude" PNone) ;;
    (if truthy lat && truthy lon
     then coordinate_cache_set code (lat, lon)
     else pure tt) ;;;
    pure code
  else
    pure (fallback_code city_name).

Definition get_city_code (city_name : string) : M pyval :=
  fun w =>
    match _code_cache w !! upper city_name with
    | Some code => (Ok code, w)
    | None =>
        try_except (get_city_code_try city_name)
          (except_Exception (pure (fallback_code city_name))) w
    end.

(** The [try] block of [get_airport_code]. *)
Definition get_airport_code_try (city_name : string) : M pyval :=
  data <- call (airport_request city_name) ;;
  if truthy data then
    first <- lift (getitem_index data 0) ;;
    code <- lift (getitem_key first "iataCode") ;;
    code_cache_set (upper city_name) code ;;;
    pure code
  else
    get_city_code city_name.

Definition get_airport_code (city_name : string) : M pyval :=
  fun w =>
    match _code_cache w !! upper city_name with
    | Some code => (Ok code, w)
    | None =>
        try_except (get_airport_code_try city_name)
          (except_Exception (get_city_code city_name)) w
    end.

(** The [try] block of [get_city_coordinates]. *)
Definition get_city_coordinates_try (city_code : pyval)
  : M (option (pyval * pyval)) :=
  data <- call (LocationsGet city_code "CITY" (Some "FULL")) ;;
  if truthy data then
    first <- lift (getitem_index data 0) ;;
    geo <- lift (dict_get first "geoCode" (PDict [])) ;;
    lat <- lift (dict_get geo "latitude" PNone) ;;
    lon <- lift (dict_get geo "longitude" PNone) ;;
    if truthy lat && truthy lon then
      coordinate_cache_set city_code (lat, lon) ;;;
      pure (Some (lat, lon))
    else pure None
  else pure None.

(** [None] is Python's [None]; [Some (lat, lon)] is the tuple. *)
Definition get_city_coordinates (city_code : pyval)
  : M (option (pyval * pyval)) :=
  cached <- coordinate_cache_find city_code ;;
  match cached with
  | Some coords => pure (Some coords)
  | None =>
      try_except (get_city_coordinates_try city_code)
        (except_Exception (pure None))
  end.

(** ** Amadeus API calls *)

Definition no_flights_found : FlightOption :=
  mkFlightOption (PStr "No flights found") (PStr "N/A") (PStr "N/A") (PStr "N/A").

Definition error_fetching_flights : FlightOption :=
  mkFlightOption (PStr "Error fetching flights") (PStr "N/A") (PStr "N/A") (PStr "N/A").

(** From [best = offers[0]] to the returned record. *)
Definition flight_of_offers (offers : pyval) : result FlightOption :=
  best <~ getitem_index offers 0 ;;
  price_obj <~ getitem_key best "price" ;;
  price <~ getitem_key price_obj "total" ;;
  itineraries <~ getitem_key best "itineraries" ;;
  first_itinerary <~ getitem_index itineraries 0 ;;
  segments <~ getitem_key first_itinerary "segments" ;;
  first_segment <~ getitem_index segments 0 ;;
  segments' <~ getitem_key first_itinerary "segments" ;;
  last_segment <~ getitem_index segments' (-1) ;;
  airline <~ getitem_key first_segment "carrierCode" ;;
  departure <~ getitem_key first_segment "departure" ;;
  departure_time <~ getitem_key departure "at" ;;
  arrival <~ getitem_key last_segment "arrival" ;;
  arrival_time <~ getitem_key arrival "at" ;;
  Ok (mkFlightOption airline (PStr (format price ++ " USD"))
        departure_time arrival_time).

Definition find_best_flight (origin destination : pyval) (dep ret : string)
  : M FlightOption :=
  try_except
    (offers <- call (FlightOffersSearchGet origin destination dep ret 1 "USD" 3) ;;
     if negb (truthy offers) then pure no_flights_found
     else lift (flight_of_offers offers))
    (except_ResponseError (pure error_fetching_flights)).

Definition no_hotel_offers_found : HotelOption :=
  mkHotelOption (PStr "No hotel offers found") (PStr "N/A") (PStr "N/A").

Definition error_fetching_hotels_api : HotelOption :=
  mkHotelOption (PStr "Error fetching hotels (API issue)") (PStr "N/A") (PStr "N/A").

Definition error_fetching_hotels_general : HotelOption :=
  mkHotelOption (PStr "Error fetching hotels (General)") (PStr "N/A") (PStr "N/A").

(** [not response.data or not response.data[0].get("offers")]: the second
    operand is evaluated only when the data are truthy. *)
Definition hotel_has_no_offers (data : pyval) : result bool :=
  if negb (truthy data) then Ok true
  else
    first <~ getitem_index data 0 ;;
    offers <~ dict_get first "offers" PNone ;;
    Ok (negb (truthy offers)).

(** From [first_hotel_offers = response.data[0]] to the returned record. *)
Definition hotel_of_data (data : pyval) : result HotelOption :=
  first_hotel_offers <~ getitem_index data 0 ;;
  hotel_info <~ dict_get first_hotel_offers "hotel" (PDict []) ;;
  offers <~ dict_get first_hotel_offers "offers" (PList [PDict []]) ;;
  offer_info <~ getitem_index offers 0 ;;
  name <~ dict_get hotel_info "name" (PStr "Unknown Hotel") ;;
  address_obj <~ dict_get hotel_info "address" (PDict []) ;;
  address_lines <~ dict_get address_obj "lines" (PList []) ;;
  address <~ (if truthy address_lines then getitem_index address_lines 0
              else Ok (PStr "Address not available")) ;;
  price_obj <~ dict_get offer_info "price" (PDict []) ;;
  price <~ dict_get price_obj "total" (PStr "N/A") ;;
  Ok (mkHotelOption name (PStr (format price ++ " USD")) address).

Definition find_best_hotel (destination : pyval) (dep ret : string)
  : M HotelOption :=
  try_except
    (data <- call (HotelOffersGet destination dep ret 1 "USD" "FULL" true) ;;
     none <- lift (hotel_has_no_offers data) ;;
     if (none : bool) then pure no_hotel_offers_found
     else lift (hotel_of_data data))
    (except_ResponseError_then_Exception
       (pure error_fetching_hotels_api)
       (pure error_fetching_hotels_general)).

Definition coordinate_error : list Activity :=
  [mkActivity (PStr "Coordinate Error")
     (PStr "Cannot search activities without coordinates.")].

Definition static_fallback : list Activity :=
  [mkActivity (PStr "Local Exploration")
     (PStr "Explore nearby attractions and sights.");
   mkActivity (PStr "Dining Experience")
     (PStr "Try a highly-rated local restaurant.")].

Definition api_error_fallback : list Activity :=
  [mkActivity (PStr "City Walking Tour")
     (PStr "Explore the main sights on foot (API Error Fallback).");
   mkActivity (PStr "Local Market")
     (PStr "Enjoy local food and crafts (API Error Fallback).")].

Definition general_error_fallback : list Activity :=
  [mkActivity (PStr "Activity Search Failed")
     (PStr "Check local listings (General Error Fallback).")].

(** The body of the loop over [response.data[:3]], for one [item]. *)
Definition activity_of_item (item : pyval) : result Activity :=
  name <~ dict_get item "name" (PStr "Unknown Activity") ;;
  category <~ dict_get item "category" (PStr "N/A") ;;
  let description := PStr ("Category: " ++ format category) in
  short <~ dict_get item "shortDescription" PNone ;;
  description <~ (if truthy short then getitem_key item "shortDescription"
                  else Ok description) ;;
  price_info <~ dict_get item "price" (PDict []) ;;
  currency <~ dict_get price_info "currencyCode" PNone ;;
  priced <~ (if truthy currency
             then amount <~ dict_get price_info "amount" PNone ;; Ok (truthy amount)
             else Ok false) ;;
  description <~ (if (priced : bool) then
                    amount <~ getitem_key price_info "amount" ;;
                    currency' <~ getitem_key price_info "currencyCode" ;;
                    iadd_str description
                      (" (Price: " ++ format amount ++ " " ++ format currency' ++ ")")
                  else Ok description) ;;
  Ok (mkActivity name description).

(** The [try] block of [get_activities]. *)
Definition get_activities_try (latitude longitude : pyval) : M (list Activity) :=
  data <- call (ActivitiesGet latitude longitude 20) ;;
  sliced <- lift (slice_to data 3) ;;
  items <- lift (iterate sliced) ;;
  activities_list <- lift (rmap activity_of_item items) ;;
  match activities_list with
  | _ :: _ => pure activities_list
  | [] => pure static_fallback
  end.

Definition get_activities (destination : pyval) : M (list Activity) :=
  coordinates <- get_city_coordinates destination ;;
  match coordinates with
  | None => pure coordinate_error
  | Some (latitude, longitude) =>
      try_except (get_activities_try latitude longitude)
        (except_ResponseError_then_Exception
           (pure api_error_fallback)
           (pure general_error_fallback))
  end.

(** ** CLI input and the data the crew is built from *)

Record UserTripRequest : Type := mkUserTripRequest {
  origin : pyval;
  destination : pyval;
  departure_date : string;
  return_date : string
}.

(** [datetime.strptime(d, "%Y-%m-%d")] returns, rather than raising
    [ValueError]. *)
Variable strptime_ok : string -> bool.

(** How [get_user_trip_from_cli] ends: with [SystemExit], which is not an
    [Exception], or with the request. *)
Inductive cli_outcome : Type :=
| SystemExit (message : string)
| Returned (trip : UserTripRequest).

(** The loop over [[dep, ret]]: the first date that does not parse ends the
    run. *)
Fixpoint check_dates (dates : list string) : bool :=
  match dates with
  | [] => true
  | d :: rest => if strptime_ok d then check_dates rest else false
  end.

(** [get_user_trip_from_cli], from the four answers as the code holds them
    after [.strip()] and [.title()]. *)
Definition get_user_trip_from_cli (origin destination dep ret : string)
  : M cli_outcome :=
  if check_dates [dep; ret] then
    origin_code <- get_airport_code origin ;;
    destination_city_code <- get_city_code destination ;;
    pure (Returned (mkUserTripRequest origin_code destination_city_code dep ret))
  else
    pure (SystemExit "Invalid date format. Use YYYY-MM-DD.").

(** A resolver called on a value: [city_name.upper()] needs a string. *)
Definition on_str {A} (f : string -> M A) (v : pyval) : M A :=
  match v with
  | PStr s => f s
  | _ => fun w => (Raise AttributeError, w)
  end.

Record TripData : Type := mkTripData {
  dest_airport_code : pyval;
  flight : FlightOption;
  hotel : HotelOption;
  activities : list Activity;
  activities_text : string
}.

Definition newline : string := String (ascii_of_nat 10) EmptyString.

(** ["\n".join(lines)]. *)
Fixpoint join_lines (lines : list string) : string :=
  match lines with
  | [] => EmptyString
  | [l] => l
  | l :: rest => l ++ newline ++ join_lines rest
  end.

Definition activity_line (a : Activity) : string :=
  "- " ++ format (activity_name a) ++ ": " ++ format (description a).

(** The part of [build_travel_planner_crew] that gets data from the
    service: from [dest_airport_code] to [activities_text].  The agents and
    tasks built from these values stay outside. *)
Definition build_travel_planner_crew_data (trip : UserTripRequest) : M TripData :=
  dest_airport_code <- on_str get_airport_code (destination trip) ;;
  flight <- find_best_flight (origin trip) dest_airport_code
              (departure_date trip) (return_date trip) ;;
  hotel <- find_best_hotel (destination trip)
             (departure_date trip) (return_date trip) ;;
  activities <- get_activities (destination trip) ;;
  pure (mkTripData dest_airport_code flight hotel activities
          (join_lines (map activity_line activities))).

(** ** Sequences of calls *)

(** A call of one of the six functions that reach the service. *)
Inductive action : Type :=
| CityCode (city_name : string)
| AirportCode (city_name : string)
| Coordinates (city_code : pyval)
| BestFlight (origin destination : pyval) (dep ret : string)
| BestHotel (destination : pyval) (dep ret : string)
| Activities (destination : pyval).

(** The state a call leaves, whatever it returns or raises. *)
Definition perform (a : action) (w : world) : world :=
  match a with
  | CityCode city_name => snd (get_city_code city_name w)
  | AirportCode city_name => snd (get_airport_code city_name w)
  | Coordinates city_code => snd (get_city_coordinates city_code w)
  | BestFlight origin destination dep ret =>
      snd (find_best_flight origin destination dep ret w)
  | BestHotel destination dep ret =>
      snd (find_best_hotel destination dep ret w)
  | Activities destination => snd (get_activities destination w)
  end.

Definition perform_all (actions : list action) (w : world) : world :=
  fold_left (fun w a => perform a w) actions w.

End Planner.

(** The three ways the state changes: a request goes out, a code is stored
    under a name that had none, a pair of truthy coordinates is stored. *)
Inductive grows : world -> world -> Prop :=
| grows_refl w : grows w w
| grows_issue r w w' :
    grows (issue r w) w' -> grows w w'
| grows_code k v w w' :
    _code_cache w !! k = None ->
    grows (mkWorld (<[k := v]> (_code_cache w)) (_coordinate_cache w) (queries w)) w' ->
    grows w w'
| grows_coordinates k lat lon w w' :
    truthy lat = true -> truthy lon = true ->
    grows (mkWorld (_code_cache w) (<[k := (lat, lon)]> (_coordinate_cache w)) (queries w)) w' ->
    grows w w'.

(** Every cached pair of coordinates has a truthy latitude and a truthy
    longitude. *)
Definition coordinates_truthy (w : world) : Prop :=
  forall k lat lon,
    _coordinate_cache w !! k = Some (lat, lon) ->
    truthy lat = true /\ truthy lon = true.

(** ** Sample services *)

(** A service that finds nothing, whatever it is asked. *)
Definition finds_nothing : list request -> request -> outcome :=
  fun _ _ => Responds (PList []).

(** A service that is down. *)
Definition always_down : list request -> request -> outcome :=
  fun _ _ => Fails ResponseError.

Definition location (code : string) (geo : pyval) : pyval :=
  PList [PDict [("iataCode", PStr code); ("geoCode", geo)]].

Definition geo_code (lat lon : pyval) : pyval :=
  PDict [("latitude", lat); ("longitude", lon)].

(** Paris, with its coordinates, for every location lookup; nothing
    else. *)
Definition knows_paris : list request -> request -> outcome :=
  fun _ r =>
    match r with
    | LocationsGet _ _ _ =>
        Responds (location "PAR" (geo_code (PNum (Q2Qc (4885 # 100))) (PNum (Q2Qc (235 # 100)))))
    | _ => Responds (PList [])
    end.

(** Paris for a lookup of subtype "CITY"; nothing else. *)
Definition knows_cities_only : list request -> request -> outcome :=
  fun _ r =>
    match r with
    | LocationsGet _ subType _ =>
        if String.eqb subType "CITY"
        then Responds (location "PAR" (geo_code (PNum (Q2Qc (4885 # 100))) (PNum (Q2Qc (235 # 100)))))
        else Responds (PList [])
    | _ => Responds (PList [])
    end.

(** A location whose [geoCode] is JSON [null]. *)
Definition null_geo : list request -> request -> outcome :=
  fun _ _ => Responds (location "CDG" PNone).

(** A location on the equator: latitude 0. *)
Definition on_equator : list request -> request -> outcome :=
  fun _ _ => Responds (location "EQT" (geo_code (PNum 0%Qc) (PNum (Q2Qc (785 # 10))))).

(** One flight offer priced "450", one itinerary of two segments. *)
Definition one_offer : pyval :=
  PList [PDict
    [("price", PDict [("total", PStr "450")]);
     ("itineraries", PList [PDict [("segments", PList
        [PDict [("carrierCode", PStr "AF");
                ("departure", PDict [("at", PStr "2025-06-01T18:00:00")]);
                ("arrival", PDict [("at", PStr "2025-06-01T21:00:00")])];
         PDict [("carrierCode", PStr "DL");
                ("departure", PDict [("at", PStr "2025-06-01T22:00:00")]);
                ("arrival", PDict [("at", PStr "2025-06-02T07:30:00")])]])]])]].

Definition sells_one_offer : list request -> request -> outcome :=
  fun _ _ => Responds one_offer.

(** A flight offer without a [price] field. *)
Definition offer_without_price : list request -> request -> outcome :=
  fun _ _ => Responds (PList [PDict []]).

(** [str] of a value that is not a string, for the examples. *)
Definition plain_str (v : pyval) : string :=
  match v with
  | PNone => "None"
  | PBool true => "True"
  | PBool false => "False"
  | _ => "?"
  end.

(** The Paris entry of [knows_paris]. *)
Definition paris : pyval :=
  location "PAR" (geo_code (PNum (Q2Qc (4885 # 100))) (PNum (Q2Qc (235 # 100)))).

(** A service with one fixed answer for each kind of request. *)
Definition canned (locations flights hotels activities : outcome)
  : list request -> request -> outcome :=
  fun _ r =>
    match r with
    | LocationsGet _ _ _ => locations
    | FlightOffersSearchGet _ _ _ _ _ _ _ => flights
    | HotelOffersGet _ _ _ _ _ _ _ => hotels
    | ActivitiesGet _ _ _ => activities
    end.

(** One hotel with a name, an address and a priced offer. *)
Definition lutetia_address : list (string * pyval) :=
  [("lines", PList [PStr "45 Boulevard Raspail"])].

Definition lutetia_hotel : list (string * pyval) :=
  [("name", PStr "Hotel Lutetia"); ("address", PDict lutetia_address)].

Definition lutetia_price : list (string * pyval) :=
  [("total", PStr "320.00")].

Definition lutetia_fields : list (string * pyval) :=
  [("hotel", PDict lutetia_hotel);
   ("offers", PList [PDict [("price", PDict lutetia_price)]])].

Definition one_hotel : pyval := PList [PDict lutetia_fields].

(** One hotel that is only an offer, with nothing in it. *)
Definition bare_hotel : pyval :=
  PList [PDict [("offers", PList [PDict []])]].

Definition louvre_fields : list (string * pyval) :=
  [("name", PStr "Louvre tour");
   ("shortDescription", PStr "Skip the line");
   ("price", PDict [("amount", PStr "55.00"); ("currencyCode", PStr "EUR")])].

Definition river_walk : pyval :=
  PDict [("name", PStr "River walk"); ("category", PStr "SIGHTS")].

(** A service with a city, a flight, a hotel and two activities. *)
Definition paris_trips : list request -> request -> outcome :=
  canned (Responds paris) (Responds one_offer) (Responds one_hotel)
    (Responds (PList [PDict louvre_fields; river_walk])).

(** A stand-in for [strptime] in the examples: ten characters with dashes
    after the year and the month. *)
Definition dashed_date (d : string) : bool :=
  Nat.eqb (String.length d) 10 &&
  String.eqb (substring 4 1 d) "-" && String.eqb (substring 7 1 d) "-".

(** * Properties *)

Section Properties.

Context (amadeus : list request -> request -> outcome).
Context (str_of_other : pyval -> string).

(** [l[0]] on a non-empty list is its head. *)
Lemma getitem_index_first (x : pyval) (rest : list pyval) :
  getitem_index (PList (x :: rest)) 0 = Ok x.
Proof.
  unfold getitem_index, norm_index. cbn [length Z.ltb Z.compare].
  destruct (0 <? Z.of_nat (S (length rest)))%Z eqn:E; [reflexivity|].
  apply Z.ltb_ge in E. lia.
Qed.

(** [l[-1]] on a non-empty list is its last item. *)
Lemma getitem_index_last (x : pyval) (rest : list pyval) :
  getitem_index (PList (x :: rest)) (-1) = Ok (List.last (x :: rest) x).
Proof.
  unfold getitem_index, norm_index.
  replace (-1 <? 0)%Z with true by reflexivity.
  replace (-1 + Z.of_nat (length (x :: rest)))%Z with (Z.of_nat (length rest))
    by (cbn [length]; lia).
  destruct (Z.of_nat (length rest) <? 0)%Z eqn:E1; [apply Z.ltb_lt in E1; lia|].
  destruct (Z.of_nat (length rest) <? Z.of_nat (length (x :: rest)))%Z eqn:E2;
    [|apply Z.ltb_ge in E2; cbn [length] in E2; lia].
  rewrite Nat2Z.id.
  assert (H : forall (l : list pyval) y d,
             nth_error (y :: l) (length l) = Some (List.last (y :: l) d)).
  { induction l as [|z l IH]; intros y d; [reflexivity|].
    change (nth_error (y :: z :: l) (length (z :: l)))
      with (nth_error (z :: l) (length l)).
    rewrite (IH z d). reflexivity. }
  now rewrite (H rest x x).
Qed.

(** A [try] whose [except Exception] clause returns a value returns. *)
Lemma try_except_Exception_returns {A} (body : M A) (x : A) w :
  exists v w', try_except body (except_Exception (pure x)) w = (Ok v, w').
Proof.
  unfold try_except, except_Exception, pure.
  destruct (body w) as [[a|e] w']; eauto.
Qed.

(** [get_city_code] never raises. *)
Lemma get_city_code_returns city_name w :
  exists v w', get_city_code amadeus city_name w = (Ok v, w').
Proof.
  unfold get_city_code.
  destruct (_code_cache w !! upper city_name); [eauto|].
  apply try_except_Exception_returns.
Qed.

Lemma get_city_code_cached city_name code w :
  _code_cache w !! upper city_name = Some code ->
  get_city_code amadeus city_name w = (Ok code, w).
Proof. intros H. unfold get_city_code. now rewrite H. Qed.

Lemma get_airport_code_cached city_name code w :
  _code_cache w !! upper city_name = Some code ->
  get_airport_code amadeus city_name w = (Ok code, w).
Proof. intros H. unfold get_airport_code. now rewrite H. Qed.

Ltac run :=
  unfold get_city_code_try, get_airport_code_try, try_except, except_Exception,
    bind, call, lift, pure, code_cache_set, coordinate_cache_set, lookup_code,
    rbind in *.

(** A lookup that supplies no code ends in the fallback, one request
    later, with the caches as they were. *)
Lemma get_city_code_no_code city_name w :
  _code_cache w !! upper city_name = None ->
  lookup_code (amadeus (queries w) (city_request city_name)) = None ->
  get_city_code amadeus city_name w
  = (Ok (fallback_code city_name), issue (city_request city_name) w).
Proof.
  intros Hc Hl. unfold get_city_code. rewrite Hc. run.
  destruct (amadeus _ _) as [data|e]; [|reflexivity].
  destruct (truthy data); [|reflexivity].
  destruct (getitem_index data 0) as [first|e]; [|reflexivity].
  destruct (getitem_key first "iataCode"); [discriminate|reflexivity].
Qed.

(** A lookup that supplies a code stores it under the uppercased name,
    and returns it or, when reading the coordinates raises, the
    fallback. *)
Lemma get_city_code_code city_name code w :
  _code_cache w !! upper city_name = None ->
  lookup_code (amadeus (queries w) (city_request city_name)) = Some code ->
  exists v w1,
    get_city_code amadeus city_name w = (Ok v, w1) /\
    (v = code \/ v = fallback_code city_name) /\
    _code_cache w1 = <[upper city_name := code]> (_code_cache w) /\
    queries w1 = city_request city_name :: queries w.
Proof.
  intros Hc Hl. unfold get_city_code. rewrite Hc. run.
  destruct (amadeus _ _) as [data|e]; [|discriminate].
  destruct (truthy data); [|discriminate].
  destruct (getitem_index data 0) as [first|e]; [|discriminate].
  destruct (getitem_key first "iataCode") as [c|e]; [|discriminate].
  injection Hl as ->. cbn.
  destruct (dict_get first "geoCode" _) as [geo|]; cbn; [|eauto 10].
  destruct (dict_get geo "latitude" _) as [lat|]; cbn; [|eauto 10].
  destruct (dict_get geo "longitude" _) as [lon|]; cbn; [|eauto 10].
  destruct (truthy lat && truthy lon); cbn; [|eauto 10].
  destruct (hash_key code); cbn; eauto 10.
Qed.

Lemma get_airport_code_code city_name code w :
  _code_cache w !! upper city_name = None ->
  lookup_code (amadeus (queries w) (airport_request city_name)) = Some code ->
  get_airport_code amadeus city_name w
  = (Ok code,
     mkWorld (<[upper city_name := code]> (_code_cache w)) (_coordinate_cache w)
       (airport_request city_name :: queries w)).
Proof.
  intros Hc Hl. unfold get_airport_code. rewrite Hc. run.
  destruct (amadeus _ _) as [data|e]; [|discriminate].
  destruct (truthy data); [|discriminate].
  destruct (getitem_index data 0) as [first|e]; [|discriminate].
  destruct (getitem_key first "iataCode") as [c|e]; [|discriminate].
  injection Hl as ->. reflexivity.
Qed.

(** When the airport lookup supplies no code, the answer is the city
    resolver's, run after the airport request. *)
Lemma get_airport_code_delegates city_name w :
  _code_cache w !! upper city_name = None ->
  lookup_code (amadeus (queries w) (airport_request city_name)) = None ->
  get_airport_code amadeus city_name w
  = get_city_code amadeus city_name (issue (airport_request city_name) w).
Proof.
  intros Hc Hl. unfold get_airport_code. rewrite Hc. run.
  destruct (amadeus _ _) as [data|e]; [|reflexivity].
  destruct (truthy data).
  - destruct (getitem_index data 0) as [first|e]; [|reflexivity].
    destruct (getitem_key first "iataCode"); [discriminate|reflexivity].
  - destruct (get_city_code_returns city_name (issue (airport_request city_name) w))
      as (v & w' & ->).
    reflexivity.
Qed.

(** A call that misses the cache issues exactly one request. *)
Lemma get_city_code_queries city_name w :
  _code_cache w !! upper city_name = None ->
  queries (snd (get_city_code amadeus city_name w))
  = city_request city_name :: queries w.
Proof.
  intros Hc.
  destruct (lookup_code (amadeus (queries w) (city_request city_name))) as [code|] eqn:Hl.
  - destruct (get_city_code_code _ _ _ Hc Hl) as (v & w1 & -> & _ & _ & Hq). exact Hq.
  - now rewrite (get_city_code_no_code _ _ Hc Hl).
Qed.

Lemma upper_nonempty (s : string) : s <> "" -> truthy (fallback_code s) = true.
Proof. destruct s as [|c s]; [congruence|reflexivity]. Qed.

(** A lookup that is empty or raises supplies no code. *)
Lemma empty_or_error_no_code o : empty_or_error o = true -> lookup_code o = None.
Proof.
  destruct o as [data|e]; cbn; [|reflexivity].
  now destruct (truthy data).
Qed.

(** C5: [get_city_code] never raises; when the name is not cached and the
    lookup returns an empty result or raises, it returns the first three
    characters of the name, upper-cased, after that one request; for
    "Zzqx" the fallback code is "ZZQ". *)
Theorem get_city_code_fallback city_name w :
  (exists v w', get_city_code amadeus city_name w = (Ok v, w')) /\
  (_code_cache w !! upper city_name = None ->
   empty_or_error (amadeus (queries w) (city_request city_name)) = true ->
   get_city_code amadeus city_name w
   = (Ok (PStr (upper (substring 0 3 city_name))),
      issue (city_request city_name) w)) /\
  fallback_code "Zzqx" = PStr "ZZQ".
Proof.
  split; [apply get_city_code_returns|]. split; [|reflexivity].
  intros Hc He. apply get_city_code_no_code; [exact Hc|].
  now apply empty_or_error_no_code.
Qed.

(** C2, amended: two calls of [get_city_code] with names equal up to
    letter case issue at most two requests; when the name was cached, or
    the first lookup supplies a code, the second call is served from the
    cache and the two issue at most one; when the first lookup supplies no
    code, nothing is cached and the second call asks again. *)
Theorem get_city_code_twice name1 name2 w :
  upper name1 = upper name2 ->
  let w1 := snd (get_city_code amadeus name1 w) in
  let w2 := snd (get_city_code amadeus name2 w1) in
  length (queries w2) <= length (queries w) + 2 /\
  (is_Some (_code_cache w !! upper name1) \/
   is_Some (lookup_code (amadeus (queries w) (city_request name1))) ->
   w2 = w1 /\ length (queries w2) <= length (queries w) + 1) /\
  (_code_cache w !! upper name1 = None ->
   lookup_code (amadeus (queries w) (city_request name1)) = None ->
   queries w2 = city_request name2 :: city_request name1 :: queries w).
Proof.
  intros Hu w1 w2.
  assert (Hhit : forall c, _code_cache w1 !! upper name1 = Some c -> w2 = w1).
  { intros c Hc. subst w2. rewrite Hu in Hc.
    now rewrite (get_city_code_cached _ _ _ Hc). }
  assert (Hlen1 : length (queries w1) <= length (queries w) + 1).
  { subst w1. destruct (_code_cache w !! upper name1) as [c|] eqn:Hc.
    - rewrite (get_city_code_cached _ _ _ Hc). cbn. lia.
    - rewrite (get_city_code_queries _ _ Hc). cbn. lia. }
  assert (Hcases :
    (exists c, _code_cache w1 !! upper name1 = Some c) \/
    (_code_cache w !! upper name1 = None /\
     lookup_code (amadeus (queries w) (city_request name1)) = None /\
     w1 = issue (city_request name1) w)).
  { subst w1. destruct (_code_cache w !! upper name1) as [c|] eqn:Hc.
    - left. exists c. now rewrite (get_city_code_cached _ _ _ Hc).
    - destruct (lookup_code (amadeus (queries w) (city_request name1))) as [c|] eqn:Hl.
      + left. exists c.
        destruct (get_city_code_code _ _ _ Hc Hl) as (v & w' & -> & _ & Hcc & _).
        cbn. rewrite Hcc. apply lookup_insert_eq.
      + right. now rewrite (get_city_code_no_code _ _ Hc Hl). }
  assert (Hmiss : _code_cache w !! upper name1 = None ->
                  lookup_code (amadeus (queries w) (city_request name1)) = None ->
                  queries w2 = city_request name2 :: city_request name1 :: queries w).
  { intros Hc Hl. subst w2 w1. rewrite (get_city_code_no_code _ _ Hc Hl). cbn.
    rewrite get_city_code_queries; [reflexivity|]. cbn. now rewrite <- Hu. }
  split; [|split].
  - destruct Hcases as [[c Hc]|(Hc & Hl & _)].
    + rewrite (Hhit c Hc). lia.
    + rewrite (Hmiss Hc Hl). cbn. lia.
  - intros Hsome. destruct Hcases as [[c Hc]|(Hc & Hl & _)].
    + rewrite (Hhit c Hc). split; [reflexivity|exact Hlen1].
    + rewrite Hc, Hl in Hsome. destruct Hsome as [[? ?]|[? ?]]; discriminate.
  - exact Hmiss.
Qed.

(** C9: both resolvers read and write the one cache, keyed by the
    uppercased name.  A cached code is returned by either resolver for any
    spelling of the name, with no request; a code the city lookup supplies
    is what the airport resolver returns afterwards, and a code the airport
    lookup supplies is returned and is what the city resolver returns
    afterwards. *)
Theorem code_cache_shared name name' code w :
  upper name' = upper name ->
  (_code_cache w !! upper name = Some code ->
   get_city_code amadeus name' w = (Ok code, w) /\
   get_airport_code amadeus name' w = (Ok code, w)) /\
  (_code_cache w !! upper name = None ->
   lookup_code (amadeus (queries w) (city_request name)) = Some code ->
   let w1 := snd (get_city_code amadeus name w) in
   get_airport_code amadeus name' w1 = (Ok code, w1)) /\
  (_code_cache w !! upper name = None ->
   lookup_code (amadeus (queries w) (airport_request name)) = Some code ->
   let w1 := snd (get_airport_code amadeus name w) in
   fst (get_airport_code amadeus name w) = Ok code /\
   get_city_code amadeus name' w1 = (Ok code, w1)).
Proof.
  intros Hu. split; [|split].
  - intros Hc. rewrite <- Hu in Hc.
    split; [now apply get_city_code_cached | now apply get_airport_code_cached].
  - intros Hc Hl w1. apply get_airport_code_cached. rewrite Hu. subst w1.
    destruct (get_city_code_code _ _ _ Hc Hl) as (v & w' & -> & _ & Hcc & _).
    cbn. rewrite Hcc. apply lookup_insert_eq.
  - intros Hc Hl w1. subst w1. rewrite (get_airport_code_code _ _ _ Hc Hl). cbn.
    split; [reflexivity|]. apply get_city_code_cached. cbn. rewrite Hu.
    apply lookup_insert_eq.
Qed.

(** C4, amended: when the name is not cached and the airport lookup
    supplies no code (empty result, or an error), [get_airport_code]
    returns what [get_city_code] returns on the state after the airport
    request, whose caches are the ones before the call; and for a non-empty
    name the code returned is non-empty, as long as the codes the cache
    holds and the lookups supply are. *)
Theorem get_airport_code_fallback_chain city_name w :
  (_code_cache w !! upper city_name = None ->
   lookup_code (amadeus (queries w) (airport_request city_name)) = None ->
   get_airport_code amadeus city_name w
   = get_city_code amadeus city_name (issue (airport_request city_name) w)) /\
  (city_name <> "" ->
   (forall c, _code_cache w !! upper city_name = Some c -> truthy c = true) ->
   (forall c, lookup_code (amadeus (queries w) (airport_request city_name)) = Some c ->
              truthy c = true) ->
   (forall c, lookup_code (amadeus (airport_request city_name :: queries w)
                             (city_request city_name)) = Some c ->
              truthy c = true) ->
   exists v w', get_airport_code amadeus city_name w = (Ok v, w') /\
                truthy v = true).
Proof.
  split; [apply get_airport_code_delegates|].
  intros Hne Hcache Hair Hcity.
  destruct (_code_cache w !! upper city_name) as [c|] eqn:Hc.
  { rewrite (get_airport_code_cached _ _ _ Hc). eauto. }
  destruct (lookup_code (amadeus (queries w) (airport_request city_name)))
    as [c|] eqn:Hl.
  { rewrite (get_airport_code_code _ _ _ Hc Hl). eauto. }
  rewrite (get_airport_code_delegates _ _ Hc Hl).
  set (w0 := issue (airport_request city_name) w).
  assert (Hc0 : _code_cache w0 !! upper city_name = None) by exact Hc.
  destruct (lookup_code (amadeus (queries w0) (city_request city_name)))
    as [c|] eqn:Hl0.
  - destruct (get_city_code_code _ _ _ Hc0 Hl0) as (v & w1 & -> & [->| ->] & _).
    + exists c, w1. split; [reflexivity|]. now apply Hcity.
    + exists (fallback_code city_name), w1.
      split; [reflexivity|]. now apply upper_nonempty.
  - rewrite (get_city_code_no_code _ _ Hc0 Hl0).
    eexists _, _. split; [reflexivity|]. now apply upper_nonempty.
Qed.

(** In the branches that supply no code, the resolvers leave both caches
    as they found them. *)
Lemma no_code_leaves_caches city_name w :
  lookup_code (amadeus (queries w) (city_request city_name)) = None ->
  let w1 := snd (get_city_code amadeus city_name w) in
  _code_cache w1 = _code_cache w /\ _coordinate_cache w1 = _coordinate_cache w.
Proof.
  intros Hl. cbn.
  destruct (_code_cache w !! upper city_name) as [c|] eqn:Hc.
  - now rewrite (get_city_code_cached _ _ _ Hc).
  - now rewrite (get_city_code_no_code _ _ Hc Hl).
Qed.

Lemma airport_no_code_leaves_caches city_name w :
  lookup_code (amadeus (queries w) (airport_request city_name)) = None ->
  lookup_code (amadeus (airport_request city_name :: queries w)
                 (city_request city_name)) = None ->
  let w1 := snd (get_airport_code amadeus city_name w) in
  _code_cache w1 = _code_cache w /\ _coordinate_cache w1 = _coordinate_cache w.
Proof.
  intros Hl Hl'. cbn.
  destruct (_code_cache w !! upper city_name) as [c|] eqn:Hc.
  - now rewrite (get_airport_code_cached _ _ _ Hc).
  - rewrite (get_airport_code_delegates _ _ Hc Hl).
    apply (no_code_leaves_caches city_name (issue (airport_request city_name) w)).
    exact Hl'.
Qed.

(** C6, amended: a lookup that supplies no code (an empty result, an
    exception from the service, a first entry without [iataCode]) leaves
    both caches as they were.  For [get_city_code] that is the whole call;
    [get_airport_code] then writes nothing itself and ends in the state the
    city resolver leaves, which has the caches of before the call when the
    city lookup supplies no code either. *)
Theorem fallback_leaves_caches city_name w :
  (lookup_code (amadeus (queries w) (city_request city_name)) = None ->
   let w1 := snd (get_city_code amadeus city_name w) in
   _code_cache w1 = _code_cache w /\ _coordinate_cache w1 = _coordinate_cache w) /\
  (_code_cache w !! upper city_name = None ->
   lookup_code (amadeus (queries w) (airport_request city_name)) = None ->
   snd (get_airport_code amadeus city_name w)
   = snd (get_city_code amadeus city_name (issue (airport_request city_name) w))) /\
  (lookup_code (amadeus (queries w) (airport_request city_name)) = None ->
   lookup_code (amadeus (airport_request city_name :: queries w)
                  (city_request city_name)) = None ->
   let w1 := snd (get_airport_code amadeus city_name w) in
   _code_cache w1 = _code_cache w /\ _coordinate_cache w1 = _coordinate_cache w).
Proof.
  split; [apply no_code_leaves_caches|]. split.
  - intros Hc Hl. now rewrite (get_airport_code_delegates _ _ Hc Hl).
  - apply airport_no_code_leaves_caches.
Qed.

(** The coordinate cache is written last: whenever [get_city_code] returns
    through its [except] clause, the coordinate cache is as before. *)
Lemma except_leaves_coordinate_cache city_name w e w' :
  get_city_code_try amadeus city_name w = (Raise e, w') ->
  _coordinate_cache w' = _coordinate_cache w.
Proof.
  run. destruct (amadeus _ _) as [data|e0]; [|now intros [= _ <-]].
  destruct (truthy data); [|discriminate].
  destruct (getitem_index data 0) as [first|]; [|now intros [= _ <-]].
  destruct (getitem_key first "iataCode") as [code|]; [|now intros [= _ <-]].
  cbn.
  destruct (dict_get first "geoCode" _) as [geo|]; cbn; [|now intros [= _ <-]].
  destruct (dict_get geo "latitude" _) as [lat|]; cbn; [|now intros [= _ <-]].
  destruct (dict_get geo "longitude" _) as [lon|]; cbn; [|now intros [= _ <-]].
  destruct (truthy lat && truthy lon); cbn; [|discriminate].
  destruct (hash_key code); cbn; [discriminate|now intros [= _ <-]].
Qed.

(** When the lookup supplies a hashable code and truthy coordinates,
    [get_city_code] returns the code and stores the coordinates under it,
    and [get_city_coordinates] then answers from the cache with no
    request. *)
Lemma get_city_code_caches_coordinates city_name w rest fields code lat lon others :
  _code_cache w !! upper city_name = None ->
  amadeus (queries w) (city_request city_name) = Responds (PList (PDict fields :: rest)) ->
  assoc "iataCode" fields = Some (PStr code) ->
  assoc "geoCode" fields = Some (PDict others) ->
  assoc "latitude" others = Some lat ->
  assoc "longitude" others = Some lon ->
  truthy lat = true -> truthy lon = true ->
  let w1 := snd (get_city_code amadeus city_name w) in
  fst (get_city_code amadeus city_name w) = Ok (PStr code) /\
  get_city_coordinates amadeus (PStr code) w1 = (Ok (Some (lat, lon)), w1).
Proof.
  intros Hc Ha Hcode Hgeo Hlat Hlon Tlat Tlon.
  unfold get_city_code. rewrite Hc. run. rewrite Ha.
  cbn -[assoc getitem_index]. rewrite getitem_index_first.
  unfold getitem_key, dict_get. rewrite Hcode, Hgeo, Hlat, Hlon, Tlat, Tlon.
  cbn. split; [reflexivity|].
  unfold get_city_coordinates, bind, coordinate_cache_find. cbn.
  now rewrite lookup_insert_eq.
Qed.

(** ** The fetchers *)

(** C7: when the flight search returns a non-empty list of offers, the
    record is built from the first offer alone: the airline is the carrier
    code of the first segment of its first itinerary, the departure time is
    that segment's, the arrival time is the last segment's, and the price is
    the offer's total price followed by " USD" ("450" gives "450 USD"). *)
Theorem find_best_flight_first_offer origin destination dep ret w
    best other_offers price_obj total itinerary other_itineraries
    first_segment more_segments carrier departure departure_at
    arrival arrival_at :
  amadeus (queries w) (FlightOffersSearchGet origin destination dep ret 1 "USD" 3)
  = Responds (PList (best :: other_offers)) ->
  getitem_key best "price" = Ok price_obj ->
  getitem_key price_obj "total" = Ok total ->
  getitem_key best "itineraries" = Ok (PList (itinerary :: other_itineraries)) ->
  getitem_key itinerary "segments" = Ok (PList (first_segment :: more_segments)) ->
  getitem_key first_segment "carrierCode" = Ok carrier ->
  getitem_key first_segment "departure" = Ok departure ->
  getitem_key departure "at" = Ok departure_at ->
  getitem_key (List.last (first_segment :: more_segments) first_segment) "arrival"
  = Ok arrival ->
  getitem_key arrival "at" = Ok arrival_at ->
  find_best_flight amadeus str_of_other origin destination dep ret w
  = (Ok (mkFlightOption carrier (PStr (format str_of_other total ++ " USD"))
           departure_at arrival_at),
     issue (FlightOffersSearchGet origin destination dep ret 1 "USD" 3) w) /\
  format str_of_other (PStr "450") ++ " USD" = "450 USD".
Proof.
  intros Ha Hp Ht Hi Hs Hc Hd Hda Har Hara. split; [|reflexivity].
  unfold find_best_flight, try_except, bind, call, lift. rewrite Ha.
  cbn [truthy negb]. unfold flight_of_offers.
  rewrite getitem_index_first. cbn [rbind]. rewrite Hp. cbn [rbind].
  rewrite Ht. cbn [rbind]. rewrite Hi. cbn [rbind].
  rewrite getitem_index_first. cbn [rbind]. rewrite Hs. cbn [rbind].
  rewrite getitem_index_first, getitem_index_last. cbn [rbind].
  rewrite Hc. cbn [rbind]. rewrite Hd. cbn [rbind]. rewrite Hda. cbn [rbind].
  rewrite Har. cbn [rbind]. rewrite Hara. reflexivity.
Qed.

(** Zero offers, or a [ResponseError], give a placeholder record. *)
Lemma find_best_flight_placeholders origin destination dep ret w :
  let r := FlightOffersSearchGet origin destination dep ret 1 "USD" 3 in
  (forall data, amadeus (queries w) r = Responds data -> truthy data = false ->
     find_best_flight amadeus str_of_other origin destination dep ret w
     = (Ok no_flights_found, issue r w)) /\
  (amadeus (queries w) r = Fails ResponseError ->
     find_best_flight amadeus str_of_other origin destination dep ret w
     = (Ok error_fetching_flights, issue r w)).
Proof.
  cbn. split.
  - intros data Ha Ht. unfold find_best_flight, try_except, bind, call.
    now rewrite Ha, Ht.
  - intros Ha. unfold find_best_flight, try_except, bind, call. now rewrite Ha.
Qed.

(** [find_best_hotel] never raises: one of its two [except] clauses
    catches whatever the [try] block raises. *)
Lemma find_best_hotel_returns destination dep ret w :
  exists h w', find_best_hotel amadeus str_of_other destination dep ret w = (Ok h, w').
Proof.
  unfold find_best_hotel, try_except, except_ResponseError_then_Exception.
  match goal with |- context [match ?b w with _ => _ end] => destruct (b w) as [[h|e] w'] end.
  - eauto.
  - destruct (is_ResponseError e); unfold pure; eauto.
Qed.

Lemma get_city_coordinates_returns (city_code : string) w :
  exists c w', get_city_coordinates amadeus (PStr city_code) w = (Ok c, w').
Proof.
  unfold get_city_coordinates, bind, coordinate_cache_find. cbn [hash_key].
  destruct (_coordinate_cache w !! KStr city_code) as [coords|].
  - unfold pure. eauto.
  - apply try_except_Exception_returns.
Qed.

Lemma rmap_length {A B} (f : A -> result B) (l : list A) (l' : list B) :
  rmap f l = Ok l' -> length l' = length l.
Proof.
  revert l'. induction l as [|x l IH]; intros l'; cbn.
  - now intros [= <-].
  - destruct (f x) as [y|]; cbn; [|discriminate].
    destruct (rmap f l) as [ys|]; cbn; [|discriminate].
    intros [= <-]. cbn. now rewrite (IH ys).
Qed.

Lemma chars_substring_length (s : string) : length (chars (substring 0 3 s)) <= 3.
Proof.
  unfold chars. rewrite length_map.
  destruct s as [|a [|b [|c s]]]; cbn; try lia.
  destruct s; cbn; lia.
Qed.

(** The loop runs over at most three items. *)
Lemma sliced_items_length data sliced items :
  slice_to data 3 = Ok sliced -> iterate sliced = Ok items -> length items <= 3.
Proof.
  destruct data; cbn; try discriminate.
  - intros [= <-]. cbn. intros [= <-]. apply chars_substring_length.
  - intros [= <-]. cbn. intros [= <-]. rewrite length_take. lia.
Qed.

Lemma get_activities_try_length latitude longitude w l w' :
  get_activities_try amadeus str_of_other latitude longitude w = (Ok l, w') ->
  1 <= length l <= 3.
Proof.
  unfold get_activities_try, bind, call, lift, pure.
  destruct (amadeus _ _) as [data|]; [|discriminate].
  destruct (slice_to data 3) as [sliced|] eqn:Hs; [|discriminate].
  destruct (iterate sliced) as [items|] eqn:Hi; [|discriminate].
  destruct (rmap _ items) as [acts|] eqn:Hm; [|discriminate].
  pose proof (sliced_items_length _ _ _ Hs Hi) as Hle.
  apply rmap_length in Hm.
  destruct acts as [|a acts]; intros [= <- _]; cbn in *; lia.
Qed.

(** C8: when the coordinates of the destination resolve and the
    activities query returns zero results, [get_activities] returns the
    static fallback: "Local Exploration", then "Dining Experience". *)
Theorem get_activities_static_fallback destination w latitude longitude w1 :
  get_city_coordinates amadeus destination w = (Ok (Some (latitude, longitude)), w1) ->
  amadeus (queries w1) (ActivitiesGet latitude longitude 20) = Responds (PList []) ->
  get_activities amadeus str_of_other destination w
  = (Ok static_fallback, issue (ActivitiesGet latitude longitude 20) w1) /\
  map activity_name static_fallback
  = [PStr "Local Exploration"; PStr "Dining Experience"] /\
  length static_fallback = 2.
Proof.
  intros Hc Ha. split; [|split; reflexivity].
  unfold get_activities, bind. rewrite Hc.
  unfold try_except, get_activities_try, bind, call. now rewrite Ha.
Qed.

(** C10: for every destination code and every service, [get_activities]
    returns, and returns between one and three entries. *)
Theorem get_activities_length (destination : string) w :
  exists l w',
    get_activities amadeus str_of_other (PStr destination) w = (Ok l, w') /\
    1 <= length l <= 3.
Proof.
  unfold get_activities, bind.
  destruct (get_city_coordinates_returns destination w) as (c & w1 & ->).
  destruct c as [[latitude longitude]|].
  - unfold try_except, except_ResponseError_then_Exception.
    destruct (get_activities_try _ _ latitude longitude w1) as [[l|e] w2] eqn:Ht.
    + exists l, w2. split; [reflexivity|]. exact (get_activities_try_length _ _ _ _ _ Ht).
    + destruct (is_ResponseError e); unfold pure; eexists _, _;
        (split; [reflexivity|cbn; lia]).
  - unfold pure. eexists _, _. split; [reflexivity|cbn; lia].
Qed.

End Properties.

(** ** The behaviour on particular services *)

(** C1: a flight offer without a ["price"] field makes [find_best_flight]
    raise [KeyError]: its only [except] clause is for [ResponseError]. *)
Theorem find_best_flight_raises_KeyError :
  find_best_flight offer_without_price plain_str (PStr "JFK") (PStr "PAR")
    "2025-06-01" "2025-06-10" startup
  = (Raise KeyError,
     issue (FlightOffersSearchGet (PStr "JFK") (PStr "PAR")
              "2025-06-01" "2025-06-10" 1 "USD" 3) startup).
Proof. reflexivity. Qed.

(** C3: a city on the equator.  [get_city_code] returns its code, the
    coordinate cache stays empty because latitude 0 is falsy, and
    [get_city_coordinates] goes back to the service, and answers [None]. *)
Theorem equator_coordinates_not_cached :
  let w1 := snd (get_city_code on_equator "Quito" startup) in
  let w2 := snd (get_city_coordinates on_equator (PStr "EQT") w1) in
  fst (get_city_code on_equator "Quito" startup) = Ok (PStr "EQT") /\
  _coordinate_cache w1 = ∅ /\
  fst (get_city_coordinates on_equator (PStr "EQT") w1) = Ok None /\
  queries w2 = LocationsGet (PStr "EQT") "CITY" (Some "FULL") :: queries w1.
Proof. cbn. repeat split; reflexivity. Qed.

(** C6 as stated fails.  When the airport lookup is empty,
    [get_airport_code] goes on to the city lookup, which stores what it
    finds.  And a first entry whose [geoCode] is [null] makes
    [get_city_code] store the code, raise [AttributeError] on reading the
    latitude, and return the fallback code with the cache changed. *)
Lemma fallback_branches_change_caches :
  (empty_or_error (knows_cities_only (queries startup) (airport_request "Paris")) = true /\
   fst (get_airport_code knows_cities_only "Paris" startup) = Ok (PStr "PAR") /\
   _code_cache (snd (get_airport_code knows_cities_only "Paris" startup))
   <> _code_cache startup /\
   _coordinate_cache (snd (get_airport_code knows_cities_only "Paris" startup))
   <> _coordinate_cache startup) /\
  (fst (get_city_code_try null_geo "Paris" startup) = Raise AttributeError /\
   fst (get_city_code null_geo "Paris" startup) = Ok (fallback_code "Paris") /\
   _code_cache (snd (get_city_code null_geo "Paris" startup))
   <> _code_cache startup).
Proof.
  repeat split; try reflexivity.
  - intros H. apply (f_equal (fun m => m !! "PARIS")) in H. vm_compute in H. discriminate.
  - intros H. apply (f_equal (fun m => m !! KStr "PAR")) in H. vm_compute in H. discriminate.
  - intros H. apply (f_equal (fun m => m !! "PARIS")) in H. vm_compute in H. discriminate.
Qed.


(** C2 as stated fails: a name the service does not know is looked up
    again by the second call. *)
Lemma get_city_code_twice_asks_twice :
  ~ (forall (amadeus : list request -> request -> outcome) (name1 name2 : string)
            (w : world),
       upper name1 = upper name2 ->
       length (queries (snd (get_city_code amadeus name2
                               (snd (get_city_code amadeus name1 w)))))
       <= length (queries w) + 1).
Proof.
  intros H. specialize (H finds_nothing "Zzqx" "zzqx" startup eq_refl).
  vm_compute in H. lia.
Qed.

(** C4 as stated fails: for the empty name, with no lookup result, the
    code returned is the empty string. *)
Lemma get_airport_code_empty_name :
  ~ (forall (amadeus : list request -> request -> outcome) (city_name : string)
            (w : world),
       exists v w', get_airport_code amadeus city_name w = (Ok v, w') /\
                    v <> PStr "") /\
  fst (get_airport_code finds_nothing "" startup) = Ok (PStr "").
Proof.
  split; [|reflexivity].
  intros H. destruct (H finds_nothing "" startup) as (v & w' & Heq & Hne).
  cbn in Heq. injection Heq as <- _. now apply Hne.
Qed.

Lemma get_city_code_fallback_witness :
  _code_cache startup !! upper "Zzqx" = None /\
  empty_or_error (finds_nothing (queries startup) (city_request "Zzqx")) = true /\
  get_city_code finds_nothing "Zzqx" startup
  = (Ok (PStr "ZZQ"), issue (city_request "Zzqx") startup).
Proof.
  split; [reflexivity|]. split; [reflexivity|].
  apply (proj1 (proj2 (get_city_code_fallback finds_nothing "Zzqx" startup)));
    reflexivity.
Defined.

Lemma get_city_code_twice_witness :
  upper "Paris" = upper "PARIS" /\
  length (queries (snd (get_city_code knows_paris "PARIS"
                          (snd (get_city_code knows_paris "Paris" startup)))))
  <= length (queries startup) + 1.
Proof.
  split; [reflexivity|].
  destruct (get_city_code_twice knows_paris "Paris" "PARIS" startup eq_refl)
    as (_ & H & _).
  apply H. right. exists (PStr "PAR"). reflexivity.
Defined.

Lemma code_cache_shared_witness :
  upper "paris" = upper "Paris" /\
  get_airport_code knows_paris "paris"
    (snd (get_city_code knows_paris "Paris" startup))
  = (Ok (PStr "PAR"), snd (get_city_code knows_paris "Paris" startup)) /\
  get_city_code knows_paris "paris"
    (snd (get_airport_code knows_paris "Paris" startup))
  = (Ok (PStr "PAR"), snd (get_airport_code knows_paris "Paris" startup)).
Proof.
  split; [reflexivity|].
  destruct (code_cache_shared knows_paris "Paris" "paris" (PStr "PAR") startup eq_refl)
    as (_ & Hcity & Hairport).
  split.
  - apply Hcity; reflexivity.
  - apply Hairport; reflexivity.
Defined.

Lemma get_airport_code_fallback_chain_witness :
  get_airport_code knows_cities_only "Paris" startup
  = get_city_code knows_cities_only "Paris" (issue (airport_request "Paris") startup) /\
  exists v w', get_airport_code knows_cities_only "Paris" startup = (Ok v, w') /\
               truthy v = true.
Proof.
  destruct (get_airport_code_fallback_chain knows_cities_only "Paris" startup)
    as (Hdelegates & Hnonempty).
  split.
  - apply Hdelegates; reflexivity.
  - apply Hnonempty.
    + discriminate.
    + intros c Hc. discriminate Hc.
    + intros c Hc. discriminate Hc.
    + intros c Hc. cbn in Hc. injection Hc as <-. reflexivity.
Defined.

Lemma find_best_flight_first_offer_witness :
  find_best_flight sells_one_offer plain_str (PStr "JFK") (PStr "PAR")
    "2025-06-01" "2025-06-10" startup
  = (Ok (mkFlightOption (PStr "AF") (PStr "450 USD")
           (PStr "2025-06-01T18:00:00") (PStr "2025-06-02T07:30:00")),
     issue (FlightOffersSearchGet (PStr "JFK") (PStr "PAR")
              "2025-06-01" "2025-06-10" 1 "USD" 3) startup).
Proof.
  refine (proj1 (find_best_flight_first_offer sells_one_offer plain_str
    (PStr "JFK") (PStr "PAR") "2025-06-01" "2025-06-10" startup
    _ _ _ (PStr "450") _ _ _ _ (PStr "AF") _ (PStr "2025-06-01T18:00:00")
    _ (PStr "2025-06-02T07:30:00") eq_refl eq_refl eq_refl eq_refl eq_refl
    eq_refl eq_refl eq_refl eq_refl eq_refl)).
Defined.

Lemma get_activities_static_fallback_witness :
  get_activities knows_paris plain_str (PStr "PAR") startup
  = (Ok static_fallback,
     issue (ActivitiesGet (PNum (Q2Qc (4885 # 100))) (PNum (Q2Qc (235 # 100))) 20)
       (snd (get_city_coordinates knows_paris (PStr "PAR") startup))).
Proof.
  refine (proj1 (get_activities_static_fallback knows_paris plain_str (PStr "PAR")
    startup (PNum (Q2Qc (4885 # 100))) (PNum (Q2Qc (235 # 100)))
    (snd (get_city_coordinates knows_paris (PStr "PAR") startup)) _ _));
    reflexivity.
Defined.

Lemma fallback_leaves_caches_witness :
  lookup_code (always_down (queries startup) (airport_request "Paris")) = None /\
  lookup_code (always_down (airport_request "Paris" :: queries startup)
                 (city_request "Paris")) = None /\
  _code_cache (snd (get_airport_code always_down "Paris" startup)) = _code_cache startup /\
  _coordinate_cache (snd (get_airport_code always_down "Paris" startup))
  = _coordinate_cache startup /\
  _code_cache (snd (get_city_code finds_nothing "Paris" startup)) = _code_cache startup.
Proof.
  split; [reflexivity|]. split; [reflexivity|].
  destruct (fallback_leaves_caches always_down "Paris" startup) as (_ & _ & Hair).
  destruct (fallback_leaves_caches finds_nothing "Paris" startup) as (Hcity & _).
  destruct (Hair eq_refl eq_refl) as [H1 H2].
  destruct (Hcity eq_refl) as [H3 _].
  repeat split; assumption.
Defined.

(** * The state across calls *)

Section Growth.

Context (amadeus : list request -> request -> outcome).
Context (str_of_other : pyval -> string).

Lemma grows_trans w1 w2 w3 : grows w1 w2 -> grows w2 w3 -> grows w1 w3.
Proof.
  induction 1; intros H23; eauto using grows.
Qed.

Lemma grows_code_cache w w' : grows w w' -> _code_cache w ⊆ _code_cache w'.
Proof.
  induction 1 as [w|r w w' _ IH|k v w w' Hk _ IH|k lat lon w w' _ _ _ IH]; cbn in *.
  - reflexivity.
  - exact IH.
  - etrans; [|exact IH]. now apply insert_subseteq.
  - exact IH.
Qed.

Lemma grows_coordinate_keys w w' :
  grows w w' -> dom (_coordinate_cache w) ⊆ dom (_coordinate_cache w').
Proof.
  induction 1 as [w|r w w' _ IH|k v w w' Hk _ IH|k lat lon w w' _ _ _ IH]; cbn in *.
  - reflexivity.
  - exact IH.
  - exact IH.
  - etrans; [|exact IH]. apply dom_insert_subseteq.
Qed.

Lemma grows_coordinates_truthy w w' :
  grows w w' -> coordinates_truthy w -> coordinates_truthy w'.
Proof.
  induction 1 as [w|r w w' _ IH|k v w w' Hk _ IH|k lat lon w w' Hlat Hlon _ IH];
    intros Hw.
  - exact Hw.
  - apply IH. exact Hw.
  - apply IH. exact Hw.
  - apply IH. intros k' lat' lon'. cbn.
    destruct (decide (k = k')) as [->|Hne].
    + rewrite lookup_insert_eq. now intros [= <- <-].
    + rewrite lookup_insert_ne by exact Hne. apply Hw.
Qed.

Lemma grows_queries w w' :
  grows w w' -> exists pre, queries w' = (pre ++ queries w)%list.
Proof.
  induction 1 as [w|r w w' _ IH|k v w w' Hk _ IH|k lat lon w w' _ _ _ IH]; cbn in *.
  - now exists [].
  - destruct IH as [pre ->]. exists (pre ++ [r])%list. now rewrite <- app_assoc.
  - exact IH.
  - exact IH.
Qed.

Ltac grow Hc :=
  solve
    [ apply grows_refl
    | eapply grows_issue; apply grows_refl
    | eapply grows_issue; eapply grows_code; [exact Hc|apply grows_refl]
    | eapply grows_issue; eapply grows_code; [exact Hc|];
      eapply grows_coordinates; cycle 2;
      [apply grows_refl|assumption|assumption] ].

Lemma andb_both (a b : bool) : a && b = true -> a = true /\ b = true.
Proof. destruct a, b; intuition congruence. Qed.

Lemma get_city_code_grows city_name w :
  grows w (snd (get_city_code amadeus city_name w)).
Proof.
  unfold get_city_code.
  destruct (_code_cache w !! upper city_name) as [c|] eqn:Hc; [apply grows_refl|].
  unfold get_city_code_try, try_except, except_Exception, bind, call, lift, pure,
    code_cache_set, coordinate_cache_set.
  destruct (amadeus _ _) as [data|e]; [|grow Hc].
  destruct (truthy data); [|grow Hc].
  destruct (getitem_index data 0) as [first|]; [|grow Hc].
  destruct (getitem_key first "iataCode") as [code|]; [|grow Hc].
  cbn.
  destruct (dict_get first "geoCode" _) as [geo|]; cbn; [|grow Hc].
  destruct (dict_get geo "latitude" _) as [lat|]; cbn; [|grow Hc].
  destruct (dict_get geo "longitude" _) as [lon|]; cbn; [|grow Hc].
  destruct (truthy lat && truthy lon) eqn:Ht; cbn; [|grow Hc].
  apply andb_both in Ht as [Hlat Hlon].
  destruct (hash_key code); cbn; grow Hc.
Qed.

Lemma get_airport_code_grows city_name w :
  grows w (snd (get_airport_code amadeus city_name w)).
Proof.
  destruct (_code_cache w !! upper city_name) as [c|] eqn:Hc.
  { rewrite (get_airport_code_cached amadeus _ _ _ Hc). apply grows_refl. }
  destruct (lookup_code (amadeus (queries w) (airport_request city_name)))
    as [c|] eqn:Hl.
  - rewrite (get_airport_code_code amadeus _ _ _ Hc Hl). cbn. grow Hc.
  - rewrite (get_airport_code_delegates amadeus _ _ Hc Hl).
    eapply grows_issue. apply get_city_code_grows.
Qed.

Lemma get_city_coordinates_grows city_code w :
  grows w (snd (get_city_coordinates amadeus city_code w)).
Proof.
  unfold get_city_coordinates, bind, coordinate_cache_find.
  destruct (hash_key city_code) as [k|] eqn:Hk; [|apply grows_refl].
  destruct (_coordinate_cache w !! k) as [coords|]; [apply grows_refl|].
  unfold get_city_coordinates_try, try_except, except_Exception, bind, call, lift,
    pure, coordinate_cache_set.
  destruct (amadeus _ _) as [data|e]; [|grow Hk].
  destruct (truthy data); [|grow Hk].
  destruct (getitem_index data 0) as [first|]; [|grow Hk].
  destruct (dict_get first "geoCode" _) as [geo|]; cbn; [|grow Hk].
  destruct (dict_get geo "latitude" _) as [lat|]; cbn; [|grow Hk].
  destruct (dict_get geo "longitude" _) as [lon|]; cbn; [|grow Hk].
  destruct (truthy lat && truthy lon) eqn:Ht; cbn; [|grow Hk].
  apply andb_both in Ht as [Hlat Hlon].
  rewrite Hk. cbn.
  eapply grows_issue. eapply grows_coordinates; cycle 2;
    [apply grows_refl|assumption|assumption].
Qed.

(** The fetchers send their one request and touch nothing else. *)
Lemma find_best_flight_state origin destination dep ret w :
  snd (find_best_flight amadeus str_of_other origin destination dep ret w)
  = issue (FlightOffersSearchGet origin destination dep ret 1 "USD" 3) w.
Proof.
  unfold find_best_flight, try_except, except_ResponseError, bind, call, lift, pure.
  destruct (amadeus _ _) as [data|e].
  - destruct (truthy data); cbn; [|reflexivity].
    destruct (flight_of_offers _ data) as [f|e]; [reflexivity|].
    now destruct (is_ResponseError e).
  - now destruct (is_ResponseError e).
Qed.

Lemma find_best_hotel_state destination dep ret w :
  snd (find_best_hotel amadeus str_of_other destination dep ret w)
  = issue (HotelOffersGet destination dep ret 1 "USD" "FULL" true) w.
Proof.
  unfold find_best_hotel, try_except, except_ResponseError_then_Exception, bind,
    call, lift, pure.
  destruct (amadeus _ _) as [data|e].
  - destruct (hotel_has_no_offers data) as [[|]|e]; cbn.
    + reflexivity.
    + destruct (hotel_of_data _ data) as [h|e]; [reflexivity|].
      now destruct (is_ResponseError e).
    + now destruct (is_ResponseError e).
  - now destruct (is_ResponseError e).
Qed.

Lemma get_activities_try_state latitude longitude w :
  snd (try_except (get_activities_try amadeus str_of_other latitude longitude)
         (except_ResponseError_then_Exception
            (pure api_error_fallback) (pure general_error_fallback)) w)
  = issue (ActivitiesGet latitude longitude 20) w.
Proof.
  unfold get_activities_try, try_except, except_ResponseError_then_Exception, bind,
    call, lift, pure.
  destruct (amadeus _ _) as [data|e]; [|now destruct (is_ResponseError e)].
  destruct (slice_to data 3) as [sliced|e]; [|now destruct (is_ResponseError e)].
  destruct (iterate sliced) as [items|e]; [|now destruct (is_ResponseError e)].
  destruct (rmap _ items) as [[|a acts]|e]; try reflexivity.
  now destruct (is_ResponseError e).
Qed.

Lemma get_activities_grows destination w :
  grows w (snd (get_activities amadeus str_of_other destination w)).
Proof.
  unfold get_activities, bind.
  pose proof (get_city_coordinates_grows destination w) as Hg.
  destruct (get_city_coordinates amadeus destination w) as [[[[lat lon]|]|e] w1];
    cbn in Hg; try exact Hg.
  rewrite get_activities_try_state.
  eapply grows_trans; [exact Hg|]. eapply grows_issue. apply grows_refl.
Qed.

Lemma perform_grows a w : grows w (perform amadeus str_of_other a w).
Proof.
  destruct a; cbn.
  - apply get_city_code_grows.
  - apply get_airport_code_grows.
  - apply get_city_coordinates_grows.
  - rewrite find_best_flight_state. eapply grows_issue. apply grows_refl.
  - rewrite find_best_hotel_state. eapply grows_issue. apply grows_refl.
  - apply get_activities_grows.
Qed.

Lemma perform_all_grows actions w :
  grows w (perform_all amadeus str_of_other actions w).
Proof.
  revert w. induction actions as [|a actions IH]; intros w; cbn.
  - apply grows_refl.
  - eapply grows_trans; [apply perform_grows|apply IH].
Qed.

(** What a successful [get_city_coordinates] returns is in the cache
    afterwards, under the code. *)
Lemma get_city_coordinates_cached_after city_code coords w w1 :
  get_city_coordinates amadeus city_code w = (Ok (Some coords), w1) ->
  exists k, hash_key city_code = Some k /\ _coordinate_cache w1 !! k = Some coords.
Proof.
  unfold get_city_coordinates, bind, coordinate_cache_find.
  destruct (hash_key city_code) as [k|] eqn:Hk; [|discriminate].
  destruct (_coordinate_cache w !! k) as [c|] eqn:Hc.
  { unfold pure. intros [= <- <-]. eauto. }
  unfold get_city_coordinates_try, try_except, except_Exception, bind, call, lift,
    pure, coordinate_cache_set.
  destruct (amadeus _ _) as [data|e]; [|discriminate].
  destruct (truthy data); [|discriminate].
  destruct (getitem_index data 0) as [first|]; [|discriminate].
  destruct (dict_get first "geoCode" _) as [geo|]; cbn; [|discriminate].
  destruct (dict_get geo "latitude" _) as [lat|]; cbn; [|discriminate].
  destruct (dict_get geo "longitude" _) as [lon|]; cbn; [|discriminate].
  destruct (truthy lat && truthy lon); cbn; [|discriminate].
  rewrite Hk. cbn. intros [= <- <-]. exists k. split; [reflexivity|].
  cbn. apply lookup_insert_eq.
Qed.

Lemma get_city_coordinates_hit city_code k coords w :
  hash_key city_code = Some k ->
  _coordinate_cache w !! k = Some coords ->
  get_city_coordinates amadeus city_code w = (Ok (Some coords), w).
Proof.
  intros Hk Hc. unfold get_city_coordinates, bind, coordinate_cache_find.
  now rewrite Hk, Hc.
Qed.

(** The requests of one [get_city_coordinates] call: none on a cache hit,
    one otherwise. *)
Lemma get_city_coordinates_requests city_code k w :
  hash_key city_code = Some k ->
  queries (snd (get_city_coordinates amadeus city_code w))
  = match _coordinate_cache w !! k with
    | Some _ => queries w
    | None => LocationsGet city_code "CITY" (Some "FULL") :: queries w
    end.
Proof.
  intros Hk. unfold get_city_coordinates, bind, coordinate_cache_find. rewrite Hk.
  destruct (_coordinate_cache w !! k) as [c|]; [reflexivity|].
  unfold get_city_coordinates_try, try_except, except_Exception, bind, call, lift,
    pure, coordinate_cache_set.
  destruct (amadeus _ _) as [data|e]; [|reflexivity].
  destruct (truthy data); [|reflexivity].
  destruct (getitem_index data 0) as [first|]; [|reflexivity].
  destruct (dict_get first "geoCode" _) as [geo|]; cbn; [|reflexivity].
  destruct (dict_get geo "latitude" _) as [lat|]; cbn; [|reflexivity].
  destruct (dict_get geo "longitude" _) as [lon|]; cbn; [|reflexivity].
  destruct (truthy lat && truthy lon); cbn; [|reflexivity].
  now rewrite Hk.
Qed.

Lemma get_city_coordinates_length city_code w :
  length (queries (snd (get_city_coordinates amadeus city_code w)))
  <= length (queries w) + 1.
Proof.
  destruct (hash_key city_code) as [k|] eqn:Hk.
  - rewrite (get_city_coordinates_requests _ _ _ Hk).
    destruct (_coordinate_cache w !! k); cbn; lia.
  - unfold get_city_coordinates, bind, coordinate_cache_find. rewrite Hk. cbn. lia.
Qed.

Lemma get_city_code_length city_name w :
  length (queries (snd (get_city_code amadeus city_name w)))
  <= length (queries w) + 1.
Proof.
  destruct (_code_cache w !! upper city_name) as [c|] eqn:Hc.
  - rewrite (get_city_code_cached amadeus _ _ _ Hc). cbn. lia.
  - rewrite (get_city_code_queries amadeus _ _ Hc). cbn. lia.
Qed.

Lemma get_airport_code_length city_name w :
  length (queries (snd (get_airport_code amadeus city_name w)))
  <= length (queries w) + 2.
Proof.
  destruct (_code_cache w !! upper city_name) as [c|] eqn:Hc.
  { rewrite (get_airport_code_cached amadeus _ _ _ Hc). cbn. lia. }
  destruct (lookup_code (amadeus (queries w) (airport_request city_name)))
    as [c|] eqn:Hl.
  - rewrite (get_airport_code_code amadeus _ _ _ Hc Hl). cbn. lia.
  - rewrite (get_airport_code_delegates amadeus _ _ Hc Hl).
    pose proof (get_city_code_length city_name (issue (airport_request city_name) w)).
    cbn in *. lia.
Qed.

Lemma get_activities_length_queries destination w :
  length (queries (snd (get_activities amadeus str_of_other destination w)))
  <= length (queries w) + 2.
Proof.
  unfold get_activities, bind.
  pose proof (get_city_coordinates_length destination w) as Hl.
  destruct (get_city_coordinates amadeus destination w) as [[[[lat lon]|]|e] w1];
    cbn in Hl |- *; try lia.
  rewrite get_activities_try_state. cbn. lia.
Qed.

Lemma perform_length a w :
  length (queries (perform amadeus str_of_other a w)) <= length (queries w) + 2.
Proof.
  destruct a; cbn.
  - pose proof (get_city_code_length city_name w). lia.
  - apply get_airport_code_length.
  - pose proof (get_city_coordinates_length city_code w). lia.
  - rewrite find_best_flight_state. cbn. lia.
  - rewrite find_best_hotel_state. cbn. lia.
  - apply get_activities_length_queries.
Qed.

Lemma perform_all_length actions w :
  length (queries (perform_all amadeus str_of_other actions w))
  <= length (queries w) + 2 * length actions.
Proof.
  revert w. induction actions as [|a actions IH]; intros w; cbn [perform_all fold_left length].
  - lia.
  - pose proof (IH (perform amadeus str_of_other a w)) as H1.
    pose proof (perform_length a w) as H2.
    unfold perform_all in H1. lia.
Qed.

(** X1: a code, once in the cache, is never evicted or overwritten: after
    any sequence of calls, both resolvers still return it for any spelling
    of the name, with no request. *)
Theorem cached_code_is_stable actions name name' code w :
  upper name' = upper name ->
  _code_cache w !! upper name = Some code ->
  let w' := perform_all amadeus str_of_other actions w in
  get_city_code amadeus name' w' = (Ok code, w') /\
  get_airport_code amadeus name' w' = (Ok code, w').
Proof.
  intros Hu Hc w'.
  assert (Hc' : _code_cache w' !! upper name' = Some code).
  { rewrite Hu. eapply lookup_weaken; [exact Hc|].
    apply grows_code_cache, perform_all_grows. }
  split; [now apply get_city_code_cached | now apply get_airport_code_cached].
Qed.

(** X2: every pair of coordinates in the cache has a truthy latitude and a
    truthy longitude, and the calls keep it so: after any sequence of calls
    from such a state, a pair that [get_city_coordinates] returns has
    both. *)
Theorem coordinates_returned_are_truthy actions city_code lat lon w w1 :
  coordinates_truthy w ->
  get_city_coordinates amadeus city_code (perform_all amadeus str_of_other actions w)
  = (Ok (Some (lat, lon)), w1) ->
  truthy lat = true /\ truthy lon = true /\ coordinates_truthy w1.
Proof.
  intros Hw Hget.
  assert (Hw1 : coordinates_truthy w1).
  { eapply grows_coordinates_truthy; [|exact Hw].
    eapply grows_trans; [apply perform_all_grows|].
    pose proof (get_city_coordinates_grows city_code
                  (perform_all amadeus str_of_other actions w)) as Hg.
    rewrite Hget in Hg. exact Hg. }
  destruct (get_city_coordinates_cached_after _ _ _ _ Hget) as (k & _ & Hk).
  destruct (Hw1 _ _ _ Hk) as [Hlat Hlon]. auto.
Qed.

(** X3: coordinates, once cached for a code, stay cached: after any
    sequence of calls [get_city_coordinates] answers for that code from
    the cache, with no request. *)
Theorem cached_coordinates_stay actions city_code k w :
  hash_key city_code = Some k ->
  is_Some (_coordinate_cache w !! k) ->
  let w' := perform_all amadeus str_of_other actions w in
  exists coords, get_city_coordinates amadeus city_code w' = (Ok (Some coords), w').
Proof.
  intros Hk Hc w'.
  assert (Hc' : is_Some (_coordinate_cache w' !! k)).
  { apply elem_of_dom.
    apply (grows_coordinate_keys w w' (perform_all_grows actions w)).
    now apply elem_of_dom. }
  destruct Hc' as [coords Hc']. exists coords.
  now apply (get_city_coordinates_hit _ k).
Qed.

(** X4: the list of requests only grows, at its head, and by at most two
    requests for each call. *)
Theorem requests_only_grow actions w :
  exists pre,
    queries (perform_all amadeus str_of_other actions w) = (pre ++ queries w)%list /\
    length pre <= 2 * length actions.
Proof.
  destruct (grows_queries _ _ (perform_all_grows actions w)) as [pre Hpre].
  exists pre. split; [exact Hpre|].
  pose proof (perform_all_length actions w) as Hl.
  rewrite Hpre, length_app in Hl. lia.
Qed.

End Growth.

(** * More on the resolvers *)

Section Resolvers.

Context (amadeus : list request -> request -> outcome).

(** X5: coordinates that [get_city_coordinates] returns are in the cache
    from then on: the same call, repeated, returns the same pair and sends
    no request. *)
Theorem get_city_coordinates_round_trip city_code coords w w1 :
  get_city_coordinates amadeus city_code w = (Ok (Some coords), w1) ->
  get_city_coordinates amadeus city_code w1 = (Ok (Some coords), w1).
Proof.
  intros Hget.
  destruct (get_city_coordinates_cached_after _ _ _ _ _ Hget) as (k & Hk & Hc).
  now apply (get_city_coordinates_hit _ _ k).
Qed.

(** X6: [get_city_coordinates] answers [None] only after one request, and
    then leaves both caches as they were: an absence is not cached. *)
Theorem get_city_coordinates_none city_code w w1 :
  get_city_coordinates amadeus city_code w = (Ok None, w1) ->
  w1 = issue (LocationsGet city_code "CITY" (Some "FULL")) w.
Proof.
  unfold get_city_coordinates, bind, coordinate_cache_find.
  destruct (hash_key city_code) as [k|] eqn:Hk; [|discriminate].
  destruct (_coordinate_cache w !! k) as [c|]; [discriminate|].
  unfold get_city_coordinates_try, try_except, except_Exception, bind, call, lift,
    pure, coordinate_cache_set.
  destruct (amadeus _ _) as [data|e]; [|now intros [= <-]].
  destruct (truthy data); [|now intros [= <-]].
  destruct (getitem_index data 0) as [first|]; [|now intros [= <-]].
  destruct (dict_get first "geoCode" _) as [geo|]; cbn; [|now intros [= <-]].
  destruct (dict_get geo "latitude" _) as [lat|]; cbn; [|now intros [= <-]].
  destruct (dict_get geo "longitude" _) as [lon|]; cbn; [|now intros [= <-]].
  destruct (truthy lat && truthy lon); cbn; [|now intros [= <-]].
  rewrite Hk. discriminate.
Qed.

(** X7: [get_city_coordinates] raises exactly when the code is not
    hashable (a list or a dict): the membership test, outside the [try],
    raises [TypeError], before any request. *)
Theorem get_city_coordinates_raises city_code w :
  (hash_key city_code = None ->
   get_city_coordinates amadeus city_code w = (Raise TypeError, w)) /\
  (forall e w1, get_city_coordinates amadeus city_code w = (Raise e, w1) ->
                hash_key city_code = None).
Proof.
  split.
  - intros Hk. unfold get_city_coordinates, bind, coordinate_cache_find.
    now rewrite Hk.
  - intros e w1. unfold get_city_coordinates, bind, coordinate_cache_find.
    destruct (hash_key city_code) as [k|]; [|reflexivity].
    destruct (_coordinate_cache w !! k) as [c|]; [discriminate|].
    destruct (try_except_Exception_returns
                (get_city_coordinates_try amadeus city_code) None w)
      as (v & w' & ->).
    discriminate.
Qed.

(** X8: [get_airport_code] always returns, and what it returns and sends is
    decided in this order: the cached code, with no request; the airport
    lookup's code, after one request; otherwise, after the airport and the
    city request, the city lookup's code or the fallback. *)
Theorem get_airport_code_outcome city_name w :
  exists v w',
    get_airport_code amadeus city_name w = (Ok v, w') /\
    match _code_cache w !! upper city_name with
    | Some code => v = code /\ w' = w
    | None =>
        match lookup_code (amadeus (queries w) (airport_request city_name)) with
        | Some code =>
            v = code /\ queries w' = airport_request city_name :: queries w
        | None =>
            queries w'
            = city_request city_name :: airport_request city_name :: queries w /\
            (v = fallback_code city_name \/
             lookup_code (amadeus (airport_request city_name :: queries w)
                            (city_request city_name)) = Some v)
        end
    end.
Proof.
  destruct (_code_cache w !! upper city_name) as [c|] eqn:Hc.
  { rewrite (get_airport_code_cached amadeus _ _ _ Hc). eauto. }
  destruct (lookup_code (amadeus (queries w) (airport_request city_name)))
    as [c|] eqn:Hl.
  { rewrite (get_airport_code_code amadeus _ _ _ Hc Hl). eauto. }
  rewrite (get_airport_code_delegates amadeus _ _ Hc Hl).
  set (w0 := issue (airport_request city_name) w).
  assert (Hc0 : _code_cache w0 !! upper city_name = None) by exact Hc.
  change (airport_request city_name :: queries w) with (queries w0).
  destruct (lookup_code (amadeus (queries w0) (city_request city_name)))
    as [c|] eqn:Hl0.
  - destruct (get_city_code_code amadeus _ _ _ Hc0 Hl0)
      as (v & w1 & -> & Hv & _ & Hq).
    exists v, w1. split; [reflexivity|]. split; [exact Hq|].
    destruct Hv as [->| ->]; auto.
  - rewrite (get_city_code_no_code amadeus _ _ Hc0 Hl0).
    eexists _, _. split; [reflexivity|]. split; [reflexivity|]. now left.
Qed.







End Resolvers.

(** * More on the fetchers *)

Section Fetchers.

Context (amadeus : list request -> request -> outcome).
Context (str_of_other : pyval -> string).

(** Reading response data raises [KeyError], [IndexError], [TypeError] or
    [AttributeError], never [ResponseError]. *)
Lemma getitem_key_plain v k e :
  getitem_key v k = Raise e -> is_ResponseError e = false.
Proof.
  destruct v; cbn; try (now intros [= <-]).
  destruct (assoc k items); [discriminate|now intros [= <-]].
Qed.

Lemma getitem_index_plain v i e :
  getitem_index v i = Raise e -> is_ResponseError e = false.
Proof.
  destruct v; cbn; try (now intros [= <-]).
  - destruct (norm_index i (String.length s)) as [n|]; [|now intros [= <-]].
    destruct (String.get n s); [discriminate|now intros [= <-]].
  - destruct (norm_index i (length items)) as [n|]; [|now intros [= <-]].
    destruct (nth_error items n); [discriminate|now intros [= <-]].
Qed.

Lemma dict_get_plain v k d e :
  dict_get v k d = Raise e -> is_ResponseError e = false.
Proof.
  destruct v; cbn; try (now intros [= <-]).
  destruct (assoc k items); discriminate.
Qed.

Lemma slice_to_plain v n e : slice_to v n = Raise e -> is_ResponseError e = false.
Proof. destruct v; cbn; try discriminate; now intros [= <-]. Qed.

Lemma iterate_plain v e : iterate v = Raise e -> is_ResponseError e = false.
Proof. destruct v; cbn; try discriminate; now intros [= <-]. Qed.

Lemma iadd_str_plain v s e : iadd_str v s = Raise e -> is_ResponseError e = false.
Proof. destruct v; cbn; try discriminate; now intros [= <-]. Qed.

Lemma rbind_raise {A B} (r : result A) (k : A -> result B) e :
  rbind r k = Raise e -> r = Raise e \/ exists a, r = Ok a /\ k a = Raise e.
Proof. destruct r as [a|e']; cbn; [eauto|intros [= <-]; auto]. Qed.

Ltac plain_step :=
  match goal with
  | H : rbind _ _ = Raise _ |- _ =>
      apply rbind_raise in H as [H|(? & _ & H)]
  | H : getitem_key _ _ = Raise _ |- _ => exact (getitem_key_plain _ _ _ H)
  | H : getitem_index _ _ = Raise _ |- _ => exact (getitem_index_plain _ _ _ H)
  | H : dict_get _ _ _ = Raise _ |- _ => exact (dict_get_plain _ _ _ _ H)
  | H : iadd_str _ _ = Raise _ |- _ => exact (iadd_str_plain _ _ _ H)
  | H : Ok _ = Raise _ |- _ => discriminate H
  | H : (if ?b then _ else _) = Raise _ |- _ => destruct b
  end.

Lemma flight_of_offers_plain offers e :
  flight_of_offers str_of_other offers = Raise e -> is_ResponseError e = false.
Proof. unfold flight_of_offers. intros H. repeat plain_step. Qed.

Lemma hotel_has_no_offers_plain data e :
  hotel_has_no_offers data = Raise e -> is_ResponseError e = false.
Proof. unfold hotel_has_no_offers. intros H. repeat plain_step. Qed.

Lemma hotel_of_data_plain data e :
  hotel_of_data str_of_other data = Raise e -> is_ResponseError e = false.
Proof. unfold hotel_of_data. intros H. repeat plain_step. Qed.

Lemma activity_of_item_plain item e :
  activity_of_item str_of_other item = Raise e -> is_ResponseError e = false.
Proof. unfold activity_of_item. intros H. repeat plain_step. Qed.

Lemma rmap_raise_from {A B} (f : A -> result B) (l : list A) e :
  rmap f l = Raise e -> exists x, In x l /\ f x = Raise e.
Proof.
  induction l as [|x l IH]; cbn; [discriminate|].
  destruct (f x) as [y|e'] eqn:Hx; cbn.
  - destruct (rmap f l) as [ys|e']; cbn; [discriminate|].
    intros [= <-]. destruct (IH eq_refl) as (x' & Hin & Hx'). eauto.
  - intros [= <-]. eauto.
Qed.

Lemma rmap_raises {A B} (f : A -> result B) (l : list A) x e :
  In x l -> f x = Raise e -> exists e', rmap f l = Raise e'.
Proof.
  induction l as [|y l IH]; cbn; [tauto|].
  intros [->|Hin] Hx.
  - rewrite Hx. cbn. eauto.
  - destruct (f y) as [b|]; cbn; [|eauto].
    destruct (IH Hin Hx) as [e' ->]. cbn. eauto.
Qed.

(** X10: an exception that leaves [find_best_flight] is never a
    [ResponseError]: it is either what the client raised, or what reading
    the first offer raised; the one request has gone out and the caches are
    as before. *)
Theorem find_best_flight_raise origin destination dep ret w e w' :
  find_best_flight amadeus str_of_other origin destination dep ret w = (Raise e, w') ->
  let r := FlightOffersSearchGet origin destination dep ret 1 "USD" 3 in
  is_ResponseError e = false /\
  w' = issue r w /\
  (amadeus (queries w) r = Fails e \/
   exists offers,
     amadeus (queries w) r = Responds offers /\ truthy offers = true /\
     flight_of_offers str_of_other offers = Raise e).
Proof.
  unfold find_best_flight, try_except, except_ResponseError, bind, call, lift, pure.
  destruct (amadeus _ _) as [data|e0] eqn:Ha.
  - destruct (truthy data) eqn:Ht; cbn; [|discriminate].
    destruct (flight_of_offers _ data) as [f|e0] eqn:Hf; [discriminate|].
    pose proof (flight_of_offers_plain _ _ Hf) as Hp. rewrite Hp.
    intros [= <- <-]. cbn. eauto 10.
  - destruct (is_ResponseError e0) eqn:He; [discriminate|].
    intros [= <- <-]. cbn. auto.
Qed.

(** X12: the placeholders of [find_best_hotel].  A [ResponseError] gives
    the API placeholder; any other exception from the client, and any
    exception from reading the data, gives the general one; falsy data, and
    a first entry that is a dict with no (or a falsy) ["offers"], give "No
    hotel offers found".  In each case the one request has gone out. *)
Theorem find_best_hotel_placeholders destination dep ret w :
  let r := HotelOffersGet destination dep ret 1 "USD" "FULL" true in
  let run := find_best_hotel amadeus str_of_other destination dep ret w in
  (amadeus (queries w) r = Fails ResponseError ->
   run = (Ok error_fetching_hotels_api, issue r w)) /\
  (forall e, amadeus (queries w) r = Fails e -> is_ResponseError e = false ->
   run = (Ok error_fetching_hotels_general, issue r w)) /\
  (forall data e, amadeus (queries w) r = Responds data ->
   hotel_has_no_offers data = Raise e \/
   (hotel_has_no_offers data = Ok false /\
    hotel_of_data str_of_other data = Raise e) ->
   run = (Ok error_fetching_hotels_general, issue r w)) /\
  (forall data, amadeus (queries w) r = Responds data -> truthy data = false ->
   run = (Ok no_hotel_offers_found, issue r w)) /\
  (forall fields rest,
   amadeus (queries w) r = Responds (PList (PDict fields :: rest)) ->
   truthy (default PNone (assoc "offers" fields)) = false ->
   run = (Ok no_hotel_offers_found, issue r w)).
Proof.
  cbn. unfold find_best_hotel, try_except, except_ResponseError_then_Exception,
    bind, call, lift, pure.
  repeat split.
  - intros ->. reflexivity.
  - intros e -> He. now rewrite He.
  - intros data e -> [Hn|[Hn Hd]].
    + rewrite Hn. now rewrite (hotel_has_no_offers_plain _ _ Hn).
    + rewrite Hn, Hd. now rewrite (hotel_of_data_plain _ _ Hd).
  - intros data -> Ht. unfold hotel_has_no_offers. now rewrite Ht.
  - intros fields rest -> Ht. unfold hotel_has_no_offers.
    cbn [truthy negb]. rewrite getitem_index_first. cbn [rbind]. unfold dict_get.
    destruct (assoc "offers" fields) as [offers|]; cbn [rbind].
    + change (truthy offers = false) in Ht. now rewrite Ht.
    + reflexivity.
Qed.

(** X13: a first hotel with its name, an address line and an offer with a
    total price gives that name, the first address line and the total
    followed by " USD". *)
Theorem find_best_hotel_first_offer destination dep ret w
    fields rest offer more hotel_fields name address_fields line lines
    price_fields total :
  amadeus (queries w) (HotelOffersGet destination dep ret 1 "USD" "FULL" true)
  = Responds (PList (PDict fields :: rest)) ->
  assoc "offers" fields = Some (PList (PDict offer :: more)) ->
  assoc "hotel" fields = Some (PDict hotel_fields) ->
  assoc "name" hotel_fields = Some name ->
  assoc "address" hotel_fields = Some (PDict address_fields) ->
  assoc "lines" address_fields = Some (PList (line :: lines)) ->
  assoc "price" offer = Some (PDict price_fields) ->
  assoc "total" price_fields = Some total ->
  find_best_hotel amadeus str_of_other destination dep ret w
  = (Ok (mkHotelOption name (PStr (format str_of_other total ++ " USD")) line),
     issue (HotelOffersGet destination dep ret 1 "USD" "FULL" true) w).
Proof.
  intros Ha Ho Hh Hn Had Hl Hp Ht.
  unfold find_best_hotel, try_except, bind, call, lift, pure. rewrite Ha.
  unfold hotel_has_no_offers, hotel_of_data. cbn [truthy negb].
  rewrite !getitem_index_first. unfold dict_get. cbn [rbind].
  rewrite Ho, Hh. cbn [rbind truthy negb].
  rewrite getitem_index_first. cbn [rbind].
  rewrite Hn, Had. cbn [rbind]. rewrite Hl. cbn [rbind truthy].
  rewrite getitem_index_first. cbn [rbind].
  rewrite Hp. cbn [rbind]. rewrite Ht. reflexivity.
Qed.

(** X14: the defaults of [find_best_hotel].  A first hotel with an offer
    but no ["hotel"] entry, whose offer has no ["price"], gives "Unknown
    Hotel", "Address not available" and the price "N/A USD". *)
Theorem find_best_hotel_defaults destination dep ret w fields rest offer more :
  amadeus (queries w) (HotelOffersGet destination dep ret 1 "USD" "FULL" true)
  = Responds (PList (PDict fields :: rest)) ->
  assoc "offers" fields = Some (PList (PDict offer :: more)) ->
  assoc "hotel" fields = None ->
  assoc "price" offer = None ->
  find_best_hotel amadeus str_of_other destination dep ret w
  = (Ok (mkHotelOption (PStr "Unknown Hotel") (PStr "N/A USD")
           (PStr "Address not available")),
     issue (HotelOffersGet destination dep ret 1 "USD" "FULL" true) w).
Proof.
  intros Ha Ho Hh Hp.
  unfold find_best_hotel, try_except, bind, call, lift, pure. rewrite Ha.
  unfold hotel_has_no_offers, hotel_of_data. cbn [truthy negb].
  rewrite !getitem_index_first. unfold dict_get at 1 2 3. cbn [rbind].
  rewrite Ho, Hh. cbn [rbind truthy negb].
  rewrite getitem_index_first. cbn [rbind].
  unfold dict_get at 4. rewrite Hp. reflexivity.
Qed.

(** X15: the fallbacks of [get_activities].  No coordinates: the one
    "Coordinate Error" entry, and no activities request.  A
    [ResponseError] from the activities request: the two API-error entries.
    Any other exception from the client: the one general-error entry. *)
Theorem get_activities_fallbacks destination w :
  (forall w1, get_city_coordinates amadeus destination w = (Ok None, w1) ->
   get_activities amadeus str_of_other destination w = (Ok coordinate_error, w1)) /\
  (forall latitude longitude w1,
   get_city_coordinates amadeus destination w = (Ok (Some (latitude, longitude)), w1) ->
   amadeus (queries w1) (ActivitiesGet latitude longitude 20) = Fails ResponseError ->
   get_activities amadeus str_of_other destination w
   = (Ok api_error_fallback, issue (ActivitiesGet latitude longitude 20) w1)) /\
  (forall latitude longitude w1 e,
   get_city_coordinates amadeus destination w = (Ok (Some (latitude, longitude)), w1) ->
   amadeus (queries w1) (ActivitiesGet latitude longitude 20) = Fails e ->
   is_ResponseError e = false ->
   get_activities amadeus str_of_other destination w
   = (Ok general_error_fallback, issue (ActivitiesGet latitude longitude 20) w1)).
Proof.
  unfold get_activities, bind. repeat split.
  - intros w1 ->. reflexivity.
  - intros lat lon w1 -> Ha.
    unfold try_except, get_activities_try, bind, call. now rewrite Ha.
  - intros lat lon w1 e -> Ha He.
    unfold try_except, get_activities_try, bind, call,
      except_ResponseError_then_Exception. now rewrite Ha, He.
Qed.

(** X16: when every one of the first three results can be read, the
    activities returned are those of the first three results, in order: as
    many as there are results, up to three. *)
Theorem get_activities_found destination w latitude longitude w1 items found :
  get_city_coordinates amadeus destination w = (Ok (Some (latitude, longitude)), w1) ->
  amadeus (queries w1) (ActivitiesGet latitude longitude 20) = Responds (PList items) ->
  items <> [] ->
  rmap (activity_of_item str_of_other) (firstn 3 items) = Ok found ->
  get_activities amadeus str_of_other destination w
  = (Ok found, issue (ActivitiesGet latitude longitude 20) w1) /\
  length found = Nat.min 3 (length items).
Proof.
  intros Hc Ha Hne Hm.
  pose proof (rmap_length _ _ _ Hm) as Hlen. rewrite length_take in Hlen.
  split; [|exact Hlen].
  unfold get_activities, bind. rewrite Hc.
  unfold try_except, get_activities_try, bind, call, lift, pure. rewrite Ha.
  cbn [slice_to iterate]. rewrite Hm.
  destruct found as [|a found]; [|reflexivity].
  destruct items; [congruence|]. cbn in Hlen. lia.
Qed.

(** X17: one result that cannot be read discards them all: if reading any
    of the first three results raises, [get_activities] returns the one
    general-error entry, whatever the other results are. *)
Theorem get_activities_all_or_nothing destination w latitude longitude w1 items item e :
  get_city_coordinates amadeus destination w = (Ok (Some (latitude, longitude)), w1) ->
  amadeus (queries w1) (ActivitiesGet latitude longitude 20) = Responds (PList items) ->
  In item (firstn 3 items) ->
  activity_of_item str_of_other item = Raise e ->
  get_activities amadeus str_of_other destination w
  = (Ok general_error_fallback, issue (ActivitiesGet latitude longitude 20) w1).
Proof.
  intros Hc Ha Hin He.
  destruct (rmap_raises _ _ _ _ Hin He) as [e' Hm].
  destruct (rmap_raise_from _ _ _ Hm) as (x & _ & Hx).
  pose proof (activity_of_item_plain _ _ Hx) as Hp.
  unfold get_activities, bind. rewrite Hc.
  unfold try_except, get_activities_try, bind, call, lift, pure,
    except_ResponseError_then_Exception. rewrite Ha.
  cbn [slice_to iterate]. rewrite Hm. now rewrite Hp.
Qed.

(** A result that is not a dict cannot be read. *)
Lemma activity_of_item_not_dict item :
  (forall fields, item <> PDict fields) ->
  activity_of_item str_of_other item = Raise AttributeError.
Proof.
  intros H. destruct item; try reflexivity. now destruct (H items).
Qed.

(** X23: the placeholders of [find_best_flight].  Falsy data (no offers)
    give "No flights found"; a [ResponseError] gives "Error fetching
    flights"; both after the one request. *)
Theorem find_best_flight_sentinels origin destination dep ret w :
  let r := FlightOffersSearchGet origin destination dep ret 1 "USD" 3 in
  (forall data, amadeus (queries w) r = Responds data -> truthy data = false ->
     find_best_flight amadeus str_of_other origin destination dep ret w
     = (Ok no_flights_found, issue r w)) /\
  (amadeus (queries w) r = Fails ResponseError ->
     find_best_flight amadeus str_of_other origin destination dep ret w
     = (Ok error_fetching_flights, issue r w)).
Proof.
  cbn. unfold find_best_flight, try_except, except_ResponseError, bind, call, pure.
  split.
  - intros data Ha Ht. rewrite Ha. cbn [truthy]. now rewrite Ht.
  - intros Ha. now rewrite Ha.
Qed.

Lemma find_best_hotel_result destination dep ret w :
  exists h,
    find_best_hotel amadeus str_of_other destination dep ret w
    = (Ok h, issue (HotelOffersGet destination dep ret 1 "USD" "FULL" true) w).
Proof.
  destruct (find_best_hotel_returns amadeus str_of_other destination dep ret w)
    as (h & w' & Hh).
  pose proof (find_best_hotel_state amadeus str_of_other destination dep ret w) as Hs.
  rewrite Hh in Hs. cbn in Hs. subst w'. eauto.
Qed.

(** X11: [find_best_hotel] never raises: it returns a record, after its
    one request, with the caches as before. *)
Theorem find_best_hotel_never_raises destination dep ret w :
  exists h,
    find_best_hotel amadeus str_of_other destination dep ret w
    = (Ok h, issue (HotelOffersGet destination dep ret 1 "USD" "FULL" true) w).
Proof.
  unfold find_best_hotel, try_except, except_ResponseError_then_Exception, bind,
    call, lift, pure.
  destruct (amadeus _ _) as [data|e].
  - destruct (hotel_has_no_offers data) as [[|]|e]; cbn.
    + eauto.
    + destruct (hotel_of_data _ data) as [h|e]; [eauto|].
      destruct (is_ResponseError e); eauto.
    + destruct (is_ResponseError e); eauto.
  - destruct (is_ResponseError e); eauto.
Qed.

(** X18: the description of an activity with a short description and a
    price is the short description followed by the price; a price whose
    amount or currency is missing or falsy is left out. *)
Theorem activity_of_item_description fields short :
  assoc "shortDescription" fields = Some (PStr short) ->
  short <> "" ->
  let name := default (PStr "Unknown Activity") (assoc "name" fields) in
  (forall price_fields amount currency,
     assoc "price" fields = Some (PDict price_fields) ->
     assoc "currencyCode" price_fields = Some currency ->
     assoc "amount" price_fields = Some amount ->
     truthy currency = true -> truthy amount = true ->
     activity_of_item str_of_other (PDict fields)
     = Ok (mkActivity name
             (PStr (short ++ " (Price: " ++ format str_of_other amount ++ " "
                      ++ format str_of_other currency ++ ")")))) /\
  (forall price_fields,
     assoc "price" fields = Some (PDict price_fields) ->
     truthy (default PNone (assoc "currencyCode" price_fields)) = false \/
     truthy (default PNone (assoc "amount" price_fields)) = false ->
     activity_of_item str_of_other (PDict fields) = Ok (mkActivity name (PStr short))) /\
  (assoc "price" fields = None ->
   activity_of_item str_of_other (PDict fields) = Ok (mkActivity name (PStr short))).
Proof.
  intros Hs Hne name.
  assert (Ht : truthy (PStr short) = true).
  { cbn. destruct short; [congruence|reflexivity]. }
  assert (Hname : dict_get (PDict fields) "name" (PStr "Unknown Activity") = Ok name).
  { unfold name. cbn. now destruct (assoc "name" fields). }
  assert (Hcat : exists c, dict_get (PDict fields) "category" (PStr "N/A") = Ok c).
  { cbn. destruct (assoc "category" fields); eauto. }
  destruct Hcat as [c Hcat].
  assert (Hshort : dict_get (PDict fields) "shortDescription" PNone = Ok (PStr short)).
  { cbn. now rewrite Hs. }
  assert (Hshort' : getitem_key (PDict fields) "shortDescription" = Ok (PStr short)).
  { cbn. now rewrite Hs. }
  unfold activity_of_item. rewrite Hname, Hcat. cbn [rbind].
  rewrite Hshort. cbn [rbind]. rewrite Ht, Hshort'. cbn [rbind].
  clear Hname Hcat Hshort Hshort'.
  split; [|split].
  - intros pf amount currency Hp Hc Ha Tc Ta.
    unfold dict_get at 1. rewrite Hp. cbn [rbind].
    unfold dict_get, getitem_key. rewrite Hc, Ha. cbn [rbind].
    rewrite Tc. cbn [rbind]. rewrite Ta. reflexivity.
  - intros pf Hp Hfalsy.
    unfold dict_get at 1. rewrite Hp. cbn [rbind]. unfold dict_get.
    destruct (assoc "currencyCode" pf) as [cur|]; cbn [rbind default id] in *.
    + destruct (truthy cur) eqn:Tc; cbn [rbind]; [|reflexivity].
      destruct (assoc "amount" pf) as [amt|]; cbn [rbind default id] in *.
      * destruct Hfalsy as [Hf|Hf]; [congruence|]. now rewrite Hf.
      * reflexivity.
    + reflexivity.
  - intros Hp. unfold dict_get at 1. rewrite Hp. reflexivity.
Qed.

Lemma get_activities_queries (destination : string) w :
  let w' := snd (get_activities amadeus str_of_other (PStr destination) w) in
  length (queries w) + 1 <= length (queries w') <= length (queries w) + 2 /\
  (forall latitude longitude,
     _coordinate_cache w !! KStr destination = Some (latitude, longitude) ->
     queries w' = ActivitiesGet latitude longitude 20 :: queries w).
Proof.
  cbn. unfold get_activities, bind.
  pose proof (get_city_coordinates_requests amadeus (PStr destination)
                (KStr destination) w eq_refl) as Hq.
  destruct (_coordinate_cache w !! KStr destination) as [[lat lon]|] eqn:Hc.
  - rewrite (get_city_coordinates_hit amadeus (PStr destination)
               (KStr destination) (lat, lon) w eq_refl Hc).
    rewrite get_activities_try_state. cbn. split; [lia|].
    now intros la lo [= <- <-].
  - split; [|discriminate].
    destruct (get_city_coordinates_returns amadeus destination w) as (c & w1 & Hget).
    rewrite Hget in Hq |- *. cbn in Hq.
    destruct c as [[lat lon]|].
    + rewrite get_activities_try_state. cbn. rewrite Hq. cbn. lia.
    + cbn. rewrite Hq. cbn. lia.
Qed.

(** X19: [get_activities], for a destination that is a string, sends one
    or two requests: with cached coordinates just the activities request,
    for those coordinates. *)
Theorem get_activities_requests (destination : string) w :
  let w' := snd (get_activities amadeus str_of_other (PStr destination) w) in
  length (queries w) + 1 <= length (queries w') <= length (queries w) + 2 /\
  (forall latitude longitude,
     _coordinate_cache w !! KStr destination = Some (latitude, longitude) ->
     queries w' = ActivitiesGet latitude longitude 20 :: queries w).
Proof.
  cbn. unfold get_activities, bind.
  destruct (_coordinate_cache w !! KStr destination) as [[lat lon]|] eqn:Hc.
  - rewrite (get_city_coordinates_hit amadeus (PStr destination)
               (KStr destination) (lat, lon) w eq_refl Hc).
    rewrite get_activities_try_state. cbn. split; [lia|].
    now intros la lo [= <- <-].
  - split; [|discriminate].
    pose proof (get_city_coordinates_requests amadeus (PStr destination)
                  (KStr destination) w eq_refl) as Hq.
    rewrite Hc in Hq.
    destruct (get_city_coordinates amadeus (PStr destination) w)
      as [[[[lat lon]|]|e] w1] eqn:Hget; cbn [snd] in Hq |- *.
    + rewrite get_activities_try_state. cbn. rewrite Hq. cbn. lia.
    + unfold pure. cbn [snd]. rewrite Hq. cbn. lia.
    + destruct (get_city_coordinates_returns amadeus destination w) as (c & w2 & H).
      congruence.
Qed.

End Fetchers.

(** * The callers *)

Section Callers.

Context (amadeus : list request -> request -> outcome).
Context (str_of_other : pyval -> string).
Context (strptime_ok : string -> bool).

Lemma get_airport_code_returns city_name w :
  exists v w', get_airport_code amadeus city_name w = (Ok v, w').
Proof.
  destruct (_code_cache w !! upper city_name) as [c|] eqn:Hc.
  { rewrite (get_airport_code_cached amadeus _ _ _ Hc). eauto. }
  destruct (lookup_code (amadeus (queries w) (airport_request city_name)))
    as [c|] eqn:Hl.
  - rewrite (get_airport_code_code amadeus _ _ _ Hc Hl). eauto.
  - rewrite (get_airport_code_delegates amadeus _ _ Hc Hl).
    apply get_city_code_returns.
Qed.

(** X20: [get_user_trip_from_cli] ends with [SystemExit] when a date does
    not parse, before any lookup: no request, caches as before.  With two
    dates that parse it returns: the origin is what [get_airport_code]
    gives, the destination what [get_city_code] gives after it, the dates
    are passed on, and at most three requests have gone out. *)
Theorem get_user_trip_from_cli_outcome origin_name destination_name dep ret w :
  (strptime_ok dep = false \/ strptime_ok ret = false ->
   get_user_trip_from_cli amadeus strptime_ok origin_name destination_name dep ret w
   = (Ok (SystemExit "Invalid date format. Use YYYY-MM-DD."), w)) /\
  (strptime_ok dep = true -> strptime_ok ret = true ->
   exists origin_code destination_city_code w1 w2,
     get_airport_code amadeus origin_name w = (Ok origin_code, w1) /\
     get_city_code amadeus destination_name w1 = (Ok destination_city_code, w2) /\
     get_user_trip_from_cli amadeus strptime_ok origin_name destination_name dep ret w
     = (Ok (Returned (mkUserTripRequest origin_code destination_city_code dep ret)), w2) /\
     length (queries w2) <= length (queries w) + 3).
Proof.
  unfold get_user_trip_from_cli, check_dates. split.
  - intros [H|H]; rewrite H; [reflexivity|].
    now destruct (strptime_ok dep).
  - intros -> ->.
    destruct (get_airport_code_returns origin_name w) as (oc & w1 & Ho).
    destruct (get_city_code_returns amadeus destination_name w1) as (dc & w2 & Hd).
    exists oc, dc, w1, w2. unfold bind, pure. rewrite Ho, Hd.
    repeat split.
    pose proof (get_airport_code_length amadeus origin_name w) as L1.
    pose proof (get_city_code_length amadeus destination_name w1) as L2.
    rewrite Ho in L1. rewrite Hd in L2. cbn in L1, L2. lia.
Qed.

(** Every path of [get_activities] on a string returns one to three
    entries. *)
Lemma get_activities_returns (destination_code : string) w :
  exists l w',
    get_activities amadeus str_of_other (PStr destination_code) w = (Ok l, w') /\
    1 <= length l <= 3.
Proof.
  unfold get_activities, bind.
  destruct (get_city_coordinates_returns amadeus destination_code w) as (c & w1 & ->).
  destruct c as [[latitude longitude]|].
  - unfold try_except, except_ResponseError_then_Exception.
    destruct (get_activities_try _ _ latitude longitude w1) as [[l|e] w2] eqn:Ht.
    + exists l, w2. split; [reflexivity|].
      exact (get_activities_try_length _ _ _ _ _ _ _ Ht).
    + destruct (is_ResponseError e); unfold pure; eexists _, _;
        (split; [reflexivity|cbn; lia]).
  - unfold pure. eexists _, _. split; [reflexivity|cbn; lia].
Qed.

(** X21: the data step of [build_travel_planner_crew], for a destination
    code that is a string.  The airport lookup always returns.  If the
    flight search raises, that exception leaves the whole step, before the
    hotel and the activities are asked for.  If it returns, the step
    returns: with that flight, one to three activities, and between three
    and six requests sent. *)
Theorem build_travel_planner_crew_data_outcome trip destination_code w :
  destination trip = PStr destination_code ->
  exists airport_code w1,
    get_airport_code amadeus destination_code w = (Ok airport_code, w1) /\
    (forall e w2,
       find_best_flight amadeus str_of_other (origin trip) airport_code
         (departure_date trip) (return_date trip) w1 = (Raise e, w2) ->
       build_travel_planner_crew_data amadeus str_of_other trip w = (Raise e, w2)) /\
    (forall f w2,
       find_best_flight amadeus str_of_other (origin trip) airport_code
         (departure_date trip) (return_date trip) w1 = (Ok f, w2) ->
       exists data w',
         build_travel_planner_crew_data amadeus str_of_other trip w = (Ok data, w') /\
         dest_airport_code data = airport_code /\
         flight data = f /\
         1 <= length (activities data) <= 3 /\
         length (queries w) + 3 <= length (queries w') <= length (queries w) + 6).
Proof.
  intros Hd.
  destruct (get_airport_code_returns destination_code w) as (ac & w1 & Ha).
  exists ac, w1. split; [exact Ha|].
  unfold build_travel_planner_crew_data, bind, on_str. rewrite Hd, Ha.
  split.
  - intros e w2 ->. reflexivity.
  - intros f w2 Hf. rewrite Hf.
    destruct (find_best_hotel_result amadeus str_of_other (PStr destination_code)
                (departure_date trip) (return_date trip) w2) as (h & ->).
    set (w3 := issue _ w2).
    destruct (get_activities_returns destination_code w3) as (l & w4 & Hact & Hlen).
    rewrite Hact. unfold pure. eexists _, w4. split; [reflexivity|].
    cbn [dest_airport_code flight activities]. repeat split; try lia.
    + pose proof (get_activities_queries amadeus str_of_other destination_code w3)
        as [[L _] _].
      rewrite Hact in L. cbn [snd] in L.
      pose proof (find_best_flight_state amadeus str_of_other (origin trip) ac
                    (departure_date trip) (return_date trip) w1) as Hs.
      rewrite Hf in Hs. cbn [snd] in Hs.
      pose proof (grows_queries _ _ (get_airport_code_grows amadeus destination_code w))
        as [pre Hpre].
      rewrite Ha in Hpre. cbn [snd] in Hpre.
      subst w3 w2. cbn [queries issue length] in L. rewrite Hpre, length_app in L. lia.
    + pose proof (get_activities_queries amadeus str_of_other destination_code w3)
        as [[_ U] _].
      rewrite Hact in U. cbn [snd] in U.
      pose proof (find_best_flight_state amadeus str_of_other (origin trip) ac
                    (departure_date trip) (return_date trip) w1) as Hs.
      rewrite Hf in Hs. cbn [snd] in Hs.
      pose proof (get_airport_code_length amadeus destination_code w) as La.
      rewrite Ha in La. cbn [snd] in La.
      subst w3 w2. cbn [queries issue length] in U. lia.
Qed.

(** X22: coordinates that the city lookup stored serve the activities
    search later on.  When [get_city_code] is given a code and truthy
    coordinates, then after any further calls [get_activities] on that code
    sends only the activities request, for cached coordinates. *)
Theorem activities_after_city_lookup city_name w rest fields code lat lon others actions :
  _code_cache w !! upper city_name = None ->
  amadeus (queries w) (city_request city_name) = Responds (PList (PDict fields :: rest)) ->
  assoc "iataCode" fields = Some (PStr code) ->
  assoc "geoCode" fields = Some (PDict others) ->
  assoc "latitude" others = Some lat ->
  assoc "longitude" others = Some lon ->
  truthy lat = true -> truthy lon = true ->
  let w1 := perform_all amadeus str_of_other actions
              (snd (get_city_code amadeus city_name w)) in
  exists latitude longitude,
    _coordinate_cache w1 !! KStr code = Some (latitude, longitude) /\
    queries (snd (get_activities amadeus str_of_other (PStr code) w1))
    = ActivitiesGet latitude longitude 20 :: queries w1.
Proof.
  intros Hc Ha Hcode Hgeo Hlat Hlon Tlat Tlon w1.
  destruct (get_city_code_caches_coordinates amadeus _ _ _ _ _ _ _ _
              Hc Ha Hcode Hgeo Hlat Hlon Tlat Tlon) as [_ Hcoord].
  destruct (get_city_coordinates_cached_after amadeus _ _ _ _ Hcoord)
    as (k & [= <-] & Hk).
  assert (Hin : is_Some (_coordinate_cache w1 !! KStr code)).
  { apply elem_of_dom.
    apply (grows_coordinate_keys _ w1 (perform_all_grows amadeus str_of_other actions _)).
    apply elem_of_dom. eauto. }
  destruct Hin as [[la lo] Hin]. exists la, lo. split; [exact Hin|].
  now apply (proj2 (get_activities_queries amadeus str_of_other code w1)).
Qed.

End Callers.

(** * The properties at work *)

Lemma coordinates_truthy_startup : coordinates_truthy startup.
Proof. intros k lat lon H. cbn in H. rewrite lookup_empty in H. discriminate. Qed.

Lemma cached_code_is_stable_witness :
  let w := snd (get_city_code knows_paris "Paris" startup) in
  let w' := perform_all knows_paris plain_str
              [BestHotel (PStr "PAR") "2025-06-01" "2025-06-10"; Activities (PStr "PAR")] w in
  _code_cache w !! upper "Paris" = Some (PStr "PAR") /\
  get_city_code knows_paris "paris" w' = (Ok (PStr "PAR"), w') /\
  get_airport_code knows_paris "paris" w' = (Ok (PStr "PAR"), w').
Proof.
  split; [reflexivity|].
  exact (cached_code_is_stable knows_paris plain_str
           [BestHotel (PStr "PAR") "2025-06-01" "2025-06-10"; Activities (PStr "PAR")]
           "Paris" "paris" (PStr "PAR")
           (snd (get_city_code knows_paris "Paris" startup)) eq_refl eq_refl).
Defined.

Lemma coordinates_returned_are_truthy_witness :
  let w := perform_all knows_paris plain_str [CityCode "Paris"] startup in
  get_city_coordinates knows_paris (PStr "PAR") w
  = (Ok (Some (PNum (Q2Qc (4885 # 100)), PNum (Q2Qc (235 # 100)))), w) /\
  truthy (PNum (Q2Qc (4885 # 100))) = true /\
  truthy (PNum (Q2Qc (235 # 100))) = true /\
  coordinates_truthy w.
Proof.
  split; [reflexivity|].
  exact (coordinates_returned_are_truthy knows_paris plain_str
           [CityCode "Paris"] (PStr "PAR")
           (PNum (Q2Qc (4885 # 100))) (PNum (Q2Qc (235 # 100))) startup
           (perform_all knows_paris plain_str [CityCode "Paris"] startup)
           coordinates_truthy_startup eq_refl).
Defined.

Lemma cached_coordinates_stay_witness :
  let w := snd (get_city_code knows_paris "Paris" startup) in
  let w' := perform_all knows_paris plain_str
              [AirportCode "Lyon"; Coordinates (PStr "LYS")] w in
  exists coords, get_city_coordinates knows_paris (PStr "PAR") w' = (Ok (Some coords), w').
Proof.
  apply (cached_coordinates_stay knows_paris plain_str
           [AirportCode "Lyon"; Coordinates (PStr "LYS")] (PStr "PAR") (KStr "PAR")
           (snd (get_city_code knows_paris "Paris" startup)) eq_refl).
  eexists. reflexivity.
Defined.

Lemma get_city_coordinates_round_trip_witness :
  let w1 := snd (get_city_coordinates knows_paris (PStr "PAR") startup) in
  get_city_coordinates knows_paris (PStr "PAR") w1
  = (Ok (Some (PNum (Q2Qc (4885 # 100)), PNum (Q2Qc (235 # 100)))), w1).
Proof.
  apply (get_city_coordinates_round_trip knows_paris (PStr "PAR") _ startup).
  reflexivity.
Defined.

Lemma get_city_coordinates_none_witness :
  snd (get_city_coordinates on_equator (PStr "EQT") startup)
  = issue (LocationsGet (PStr "EQT") "CITY" (Some "FULL")) startup.
Proof.
  apply (get_city_coordinates_none on_equator (PStr "EQT") startup).
  reflexivity.
Defined.

Lemma get_city_coordinates_raises_witness :
  get_city_coordinates knows_paris (PList [PStr "PAR"]) startup
  = (Raise TypeError, startup).
Proof.
  apply (proj1 (get_city_coordinates_raises knows_paris (PList [PStr "PAR"]) startup)).
  reflexivity.
Defined.


Lemma find_best_flight_raise_witness :
  let r := FlightOffersSearchGet (PStr "JFK") (PStr "PAR")
             "2025-06-01" "2025-06-10" 1 "USD" 3 in
  find_best_flight offer_without_price plain_str (PStr "JFK") (PStr "PAR")
    "2025-06-01" "2025-06-10" startup = (Raise KeyError, issue r startup) /\
  is_ResponseError KeyError = false /\
  issue r startup = issue r startup /\
  (offer_without_price (queries startup) r = Fails KeyError \/
   exists offers,
     offer_without_price (queries startup) r = Responds offers /\
     truthy offers = true /\
     flight_of_offers plain_str offers = Raise KeyError).
Proof.
  split; [reflexivity|].
  exact (find_best_flight_raise offer_without_price plain_str (PStr "JFK") (PStr "PAR")
           "2025-06-01" "2025-06-10" startup KeyError _ eq_refl).
Defined.

Lemma find_best_flight_sentinels_witness :
  find_best_flight finds_nothing plain_str (PStr "JFK") (PStr "PAR")
    "2025-06-01" "2025-06-10" startup
  = (Ok no_flights_found,
     issue (FlightOffersSearchGet (PStr "JFK") (PStr "PAR")
              "2025-06-01" "2025-06-10" 1 "USD" 3) startup) /\
  find_best_flight always_down plain_str (PStr "JFK") (PStr "PAR")
    "2025-06-01" "2025-06-10" startup
  = (Ok error_fetching_flights,
     issue (FlightOffersSearchGet (PStr "JFK") (PStr "PAR")
              "2025-06-01" "2025-06-10" 1 "USD" 3) startup).
Proof.
  split.
  - apply (proj1 (find_best_flight_sentinels finds_nothing plain_str (PStr "JFK")
                    (PStr "PAR") "2025-06-01" "2025-06-10" startup) (PList []));
      reflexivity.
  - apply (proj2 (find_best_flight_sentinels always_down plain_str (PStr "JFK")
                    (PStr "PAR") "2025-06-01" "2025-06-10" startup)).
    reflexivity.
Defined.

Lemma find_best_hotel_placeholders_witness :
  find_best_hotel always_down plain_str (PStr "PAR") "2025-06-01" "2025-06-10" startup
  = (Ok error_fetching_hotels_api,
     issue (HotelOffersGet (PStr "PAR") "2025-06-01" "2025-06-10" 1 "USD" "FULL" true)
       startup) /\
  find_best_hotel finds_nothing plain_str (PStr "PAR") "2025-06-01" "2025-06-10" startup
  = (Ok no_hotel_offers_found,
     issue (HotelOffersGet (PStr "PAR") "2025-06-01" "2025-06-10" 1 "USD" "FULL" true)
       startup) /\
  find_best_hotel (canned (Responds paris) (Responds (PList [])) (Responds (PStr "oops"))
                     (Responds (PList [])))
    plain_str (PStr "PAR") "2025-06-01" "2025-06-10" startup
  = (Ok error_fetching_hotels_general,
     issue (HotelOffersGet (PStr "PAR") "2025-06-01" "2025-06-10" 1 "USD" "FULL" true)
       startup).
Proof.
  split; [|split].
  - apply (find_best_hotel_placeholders always_down plain_str (PStr "PAR")
             "2025-06-01" "2025-06-10" startup).
    reflexivity.
  - destruct (find_best_hotel_placeholders finds_nothing plain_str (PStr "PAR")
                "2025-06-01" "2025-06-10" startup) as (_ & _ & _ & H & _).
    apply (H (PList [])); reflexivity.
  - destruct (find_best_hotel_placeholders
                (canned (Responds paris) (Responds (PList [])) (Responds (PStr "oops"))
                   (Responds (PList [])))
                plain_str (PStr "PAR") "2025-06-01" "2025-06-10" startup)
      as (_ & _ & H & _).
    apply (H (PStr "oops") AttributeError); [reflexivity|]. left. reflexivity.
Defined.

Lemma find_best_hotel_first_offer_witness :
  find_best_hotel (canned (Responds paris) (Responds (PList [])) (Responds one_hotel)
                     (Responds (PList [])))
    plain_str (PStr "PAR") "2025-06-01" "2025-06-10" startup
  = (Ok (mkHotelOption (PStr "Hotel Lutetia") (PStr "320.00 USD")
           (PStr "45 Boulevard Raspail")),
     issue (HotelOffersGet (PStr "PAR") "2025-06-01" "2025-06-10" 1 "USD" "FULL" true)
       startup).
Proof.
  apply (find_best_hotel_first_offer _ plain_str (PStr "PAR") "2025-06-01" "2025-06-10"
           startup lutetia_fields [] [("price", PDict lutetia_price)] [] lutetia_hotel
           (PStr "Hotel Lutetia") lutetia_address (PStr "45 Boulevard Raspail") []
           lutetia_price (PStr "320.00"));
    reflexivity.
Defined.

Lemma find_best_hotel_defaults_witness :
  find_best_hotel (canned (Responds paris) (Responds (PList [])) (Responds bare_hotel)
                     (Responds (PList [])))
    plain_str (PStr "PAR") "2025-06-01" "2025-06-10" startup
  = (Ok (mkHotelOption (PStr "Unknown Hotel") (PStr "N/A USD")
           (PStr "Address not available")),
     issue (HotelOffersGet (PStr "PAR") "2025-06-01" "2025-06-10" 1 "USD" "FULL" true)
       startup).
Proof.
  apply (find_best_hotel_defaults _ plain_str (PStr "PAR") "2025-06-01" "2025-06-10"
           startup [("offers", PList [PDict []])] [] [] []);
    reflexivity.
Defined.

Lemma get_activities_fallbacks_witness :
  get_activities finds_nothing plain_str (PStr "PAR") startup
  = (Ok coordinate_error, issue (LocationsGet (PStr "PAR") "CITY" (Some "FULL")) startup) /\
  fst (get_activities
         (canned (Responds paris) (Responds (PList [])) (Responds (PList []))
            (Fails ResponseError))
         plain_str (PStr "PAR") startup)
  = Ok api_error_fallback /\
  fst (get_activities
         (canned (Responds paris) (Responds (PList [])) (Responds (PList []))
            (Fails (OtherException "ConnectionError")))
         plain_str (PStr "PAR") startup)
  = Ok general_error_fallback.
Proof.
  split; [|split].
  - apply (proj1 (get_activities_fallbacks finds_nothing plain_str (PStr "PAR") startup)).
    reflexivity.
  - set (svc := canned _ _ _ (Fails ResponseError)).
    destruct (get_activities_fallbacks svc plain_str (PStr "PAR") startup) as (_ & H & _).
    rewrite (H (PNum (Q2Qc (4885 # 100))) (PNum (Q2Qc (235 # 100)))
               (snd (get_city_coordinates svc (PStr "PAR") startup)) eq_refl eq_refl).
    reflexivity.
  - set (svc := canned _ _ _ (Fails (OtherException "ConnectionError"))).
    destruct (get_activities_fallbacks svc plain_str (PStr "PAR") startup) as (_ & _ & H).
    rewrite (H (PNum (Q2Qc (4885 # 100))) (PNum (Q2Qc (235 # 100)))
               (snd (get_city_coordinates svc (PStr "PAR") startup))
               (OtherException "ConnectionError") eq_refl eq_refl eq_refl).
    reflexivity.
Defined.

Lemma get_activities_found_witness :
  fst (get_activities paris_trips plain_str (PStr "PAR") startup)
  = Ok [mkActivity (PStr "Louvre tour") (PStr "Skip the line (Price: 55.00 EUR)");
        mkActivity (PStr "River walk") (PStr "Category: SIGHTS")].
Proof.
  destruct (get_activities_found paris_trips plain_str (PStr "PAR") startup
              (PNum (Q2Qc (4885 # 100))) (PNum (Q2Qc (235 # 100)))
              (snd (get_city_coordinates paris_trips (PStr "PAR") startup))
              [PDict louvre_fields; river_walk]
              [mkActivity (PStr "Louvre tour") (PStr "Skip the line (Price: 55.00 EUR)");
               mkActivity (PStr "River walk") (PStr "Category: SIGHTS")]
              eq_refl eq_refl ltac:(discriminate) eq_refl) as [H _].
  now rewrite H.
Defined.

Lemma get_activities_all_or_nothing_witness :
  fst (get_activities
         (canned (Responds paris) (Responds (PList [])) (Responds (PList []))
            (Responds (PList [river_walk; PStr "oops"])))
         plain_str (PStr "PAR") startup)
  = Ok general_error_fallback.
Proof.
  set (svc := canned _ _ _ _).
  rewrite (get_activities_all_or_nothing svc plain_str (PStr "PAR") startup
             (PNum (Q2Qc (4885 # 100))) (PNum (Q2Qc (235 # 100)))
             (snd (get_city_coordinates svc (PStr "PAR") startup))
             [river_walk; PStr "oops"] (PStr "oops") AttributeError
             eq_refl eq_refl ltac:(right; left; reflexivity) eq_refl).
  reflexivity.
Defined.

Lemma activity_of_item_description_witness :
  activity_of_item plain_str (PDict louvre_fields)
  = Ok (mkActivity (PStr "Louvre tour") (PStr "Skip the line (Price: 55.00 EUR)")).
Proof.
  destruct (activity_of_item_description plain_str louvre_fields "Skip the line"
              eq_refl ltac:(discriminate)) as (H & _).
  apply (H [("amount", PStr "55.00"); ("currencyCode", PStr "EUR")]
           (PStr "55.00") (PStr "EUR")); reflexivity.
Defined.

Lemma get_activities_requests_witness :
  let w := snd (get_city_code knows_paris "Paris" startup) in
  queries (snd (get_activities knows_paris plain_str (PStr "PAR") w))
  = ActivitiesGet (PNum (Q2Qc (4885 # 100))) (PNum (Q2Qc (235 # 100))) 20 :: queries w.
Proof.
  apply (proj2 (get_activities_requests knows_paris plain_str "PAR"
                  (snd (get_city_code knows_paris "Paris" startup)))).
  reflexivity.
Defined.

Lemma get_user_trip_from_cli_outcome_witness :
  get_user_trip_from_cli knows_paris dashed_date "New York" "Paris"
    "2025-06-01" "10 June" startup
  = (Ok (SystemExit "Invalid date format. Use YYYY-MM-DD."), startup) /\
  exists w2,
    get_user_trip_from_cli knows_paris dashed_date "New York" "Paris"
      "2025-06-01" "2025-06-10" startup
    = (Ok (Returned (mkUserTripRequest (PStr "PAR") (PStr "PAR")
                       "2025-06-01" "2025-06-10")), w2) /\
    length (queries w2) <= 3.
Proof.
  split.
  - apply (proj1 (get_user_trip_from_cli_outcome knows_paris dashed_date
                    "New York" "Paris" "2025-06-01" "10 June" startup)).
    right. reflexivity.
  - destruct (proj2 (get_user_trip_from_cli_outcome knows_paris dashed_date
                       "New York" "Paris" "2025-06-01" "2025-06-10" startup)
                eq_refl eq_refl) as (oc & dc & w1 & w2 & Ho & Hd & Ht & Hl).
    exists w2.
    assert (Ho' : get_airport_code knows_paris "New York" startup
                  = (Ok (PStr "PAR"), snd (get_airport_code knows_paris "New York" startup)))
      by reflexivity.
    rewrite Ho' in Ho. injection Ho as <- <-.
    assert (Hd' : fst (get_city_code knows_paris "Paris"
                         (snd (get_airport_code knows_paris "New York" startup)))
                  = Ok (PStr "PAR")) by reflexivity.
    rewrite Hd in Hd'. cbn in Hd'. injection Hd' as ->.
    split; [exact Ht|exact Hl].
Defined.

Lemma build_travel_planner_crew_data_outcome_witness :
  let trip := mkUserTripRequest (PStr "JFK") (PStr "PAR") "2025-06-01" "2025-06-10" in
  exists data w',
    build_travel_planner_crew_data paris_trips plain_str trip startup = (Ok data, w') /\
    dest_airport_code data = PStr "PAR" /\
    airline (flight data) = PStr "AF" /\
    1 <= length (activities data) <= 3 /\
    3 <= length (queries w') <= 6.
Proof.
  intros trip.
  destruct (build_travel_planner_crew_data_outcome paris_trips plain_str trip "PAR" startup
              eq_refl) as (ac & w1 & Ha & _ & H).
  assert (Ha' : get_airport_code paris_trips "PAR" startup
                = (Ok (PStr "PAR"), snd (get_airport_code paris_trips "PAR" startup)))
    by reflexivity.
  rewrite Ha' in Ha. injection Ha as <- <-.
  destruct (H _ _ eq_refl) as (data & w' & Hb & Hc & Hf & Hl & Hq).
  exists data, w'. rewrite Hf. cbn in Hq.
  split; [exact Hb|]. split; [exact Hc|]. split; [reflexivity|].
  split; [exact Hl|exact Hq].
Defined.

Lemma activities_after_city_lookup_witness :
  let w1 := perform_all knows_paris plain_str
              [BestHotel (PStr "PAR") "2025-06-01" "2025-06-10"]
              (snd (get_city_code knows_paris "Paris" startup)) in
  exists latitude longitude,
    _coordinate_cache w1 !! KStr "PAR" = Some (latitude, longitude) /\
    queries (snd (get_activities knows_paris plain_str (PStr "PAR") w1))
    = ActivitiesGet latitude longitude 20 :: queries w1.
Proof.
  apply (activities_after_city_lookup knows_paris plain_str "Paris" startup []
           [("iataCode", PStr "PAR");
            ("geoCode", geo_code (PNum (Q2Qc (4885 # 100))) (PNum (Q2Qc (235 # 100))))]
           "PAR" (PNum (Q2Qc (4885 # 100))) (PNum (Q2Qc (235 # 100)))
           [("latitude", PNum (Q2Qc (4885 # 100))); ("longitude", PNum (Q2Qc (235 # 100)))]
           [BestHotel (PStr "PAR") "2025-06-01" "2025-06-10"]);
    reflexivity.
Defined.
